(** * Epic Games free-games service: classification pipeline and Discord payload

    A shallow embedding of the record-building loop of [fetchFreeGames]
    (the revision that resolves the store URL from the offer mappings and
    ships the cron job) and of [SendDiscordNotification] / [createGameEmbed]
    from [discord.go], together with the properties of the specification
    that were checked against them.

    Go strings are byte sequences: they are modelled by [string], whose
    characters are bytes.  Go's [int] is the 64-bit integer of the build
    target (linux/amd64): it is modelled by [Z] with the wrap-around written
    out where the program does arithmetic on it. *)

From Stdlib Require Import ZArith List String Ascii Bool Lia.
Import ListNotations.

Open Scope string_scope.
Open Scope Z_scope.

(** ** Go's [int] *)

Definition wrap64 (z : Z) : Z := (z + 2 ^ 63) mod 2 ^ 64 - 2 ^ 63.

Definition fitsInt64 (z : Z) : bool := (- 2 ^ 63 <=? z) && (z <=? 2 ^ 63 - 1).

(** ** The functions of package [strings] the program calls *)

Module strings.

Fixpoint drop (n : nat) (s : string) : string :=
  match n, s with
  | O, _ => s
  | S _, EmptyString => EmptyString
  | S n', String _ s' => drop n' s'
  end.

Definition HasPrefix (s pre : string) : bool := String.prefix pre s.

Definition TrimPrefix (s pre : string) : string :=
  if HasPrefix s pre then drop (String.length pre) s else s.

Fixpoint Contains (s substr : string) : bool :=
  String.prefix substr s ||
  match s with
  | EmptyString => false
  | String _ s' => Contains s' substr
  end.

(** [strings.ToLower] maps every rune to its lower case.  On the bytes of
    an ASCII letter that is the usual shift by 32.  A rune outside ASCII is
    mapped to a rune outside ASCII, except U+0130 and U+212A, which become
    [i] and [k]: none of this creates or destroys an occurrence of the
    ASCII word the program searches for, so the bytes outside [A-Z] are
    left as they are. *)
Definition lowerByte (c : ascii) : ascii :=
  let n := N_of_ascii c in
  if ((65 <=? n) && (n <=? 90))%N then ascii_of_N (n + 32) else c.

Fixpoint ToLower (s : string) : string :=
  match s with
  | EmptyString => EmptyString
  | String c s' => String (lowerByte c) (ToLower s')
  end.

End strings.

(** ** The functions of package [fmt] the program calls *)

Module fmt.

Definition isDigit (c : ascii) : bool :=
  let n := N_of_ascii c in ((48 <=? n) && (n <=? 57))%N.

Definition digitVal (c : ascii) : Z := Z.of_N (N_of_ascii c) - 48.

(** Length in bytes of the space rune (other than newline) that starts
    [s], if one does: the table [space] of [fmt/scan.go], in UTF-8. *)
Definition spaceRune (s : string) : option nat :=
  match s with
  | String c1 s1 =>
    let b1 := N_of_ascii c1 in
    if ((b1 =? 9) || (b1 =? 11) || (b1 =? 12) || (b1 =? 13) || (b1 =? 32))%N
    then Some 1%nat
    else match s1 with
    | String c2 s2 =>
      let b2 := N_of_ascii c2 in
      if ((b1 =? 194) && ((b2 =? 133) || (b2 =? 160)))%N then Some 2%nat
      else match s2 with
      | String c3 _ =>
        let b3 := N_of_ascii c3 in
        if ((b1 =? 225) && (b2 =? 154) && (b3 =? 128))%N            (* U+1680 *)
           || ((b1 =? 226) && (b2 =? 128)
               && (((128 <=? b3) && (b3 <=? 138))                   (* U+2000..U+200A *)
                   || (b3 =? 168) || (b3 =? 169) || (b3 =? 175)))%N (* U+2028, U+2029, U+202F *)
           || ((b1 =? 226) && (b2 =? 129) && (b3 =? 159))%N         (* U+205F *)
           || ((b1 =? 227) && (b2 =? 128) && (b3 =? 128))%N         (* U+3000 *)
        then Some 3%nat else None
      | EmptyString => None
      end
    | EmptyString => None
    end
  | EmptyString => None
  end.

(** The scanner's [SkipSpace] with [nlIsSpace = false], as [Sscanf] runs it: space
    runes are consumed, a newline is an error ([None]). *)
Fixpoint SkipSpace (fuel : nat) (s : string) : option string :=
  match fuel with
  | O => Some s
  | S fuel' =>
    match s with
    | EmptyString => Some s
    | String c _ =>
      if (N_of_ascii c =? 10)%N then None
      else match spaceRune s with
           | Some k => SkipSpace fuel' (strings.drop k s)
           | None => Some s
           end
    end
  end.

(** The run of decimal digits at the head of [s], and what follows it. *)
Fixpoint scanDigits (s : string) : list ascii * string :=
  match s with
  | String c s' =>
    if isDigit c then let (ds, rest) := scanDigits s' in (c :: ds, rest)
    else ([], s)
  | EmptyString => ([], s)
  end.

Definition digitsValue (ds : list ascii) : Z :=
  fold_left (fun acc c => 10 * acc + digitVal c) ds 0.

(** [fmt.Sscanf(str, "%d", &n)]: [Some n] when the scan returns a nil
    error.  Leading space is skipped, one sign is accepted, then at least
    one decimal digit is required and all the digits that follow are taken;
    [strconv.ParseInt] rejects a token outside 64 bits.  Input after the
    token is left unread and is not an error. *)
Definition Sscanf_d (str : string) : option Z :=
  match SkipSpace (String.length str) str with
  | None => None
  | Some s =>
    let '(neg, s1) :=
      match s with
      | String "+" r => (false, r)
      | String "-" r => (true, r)
      | _ => (false, s)
      end in
    match scanDigits s1 with
    | ([], _) => None
    | (ds, _) =>
      let v := if neg then - digitsValue ds else digitsValue ds in
      if fitsInt64 v then Some v else None
    end
  end.

(** [fmt.Sprintf(prefix + "%s", arg)] for a [prefix] without verbs. *)
Definition Sprintf_s (prefix arg : string) : string := prefix ++ arg.

End fmt.

(** ** The part of package [time] the program calls

    An instant is its count of seconds since the Unix epoch; the layout the
    program prints has no sub-second field.  A [Location] is its lookup
    function: the zone in force at an instant, with the span of instants on
    which it is in force (what the library's [lookup] method returns). *)

Module time.

Record zone := mkZone {
  zoneName : string;
  zoneOffset : Z;      (* seconds east of UTC *)
  zoneStart : Z;
  zoneEnd : Z
}.

Definition Location := Z -> zone.

Definition alpha : Z := - 2 ^ 63.
Definition omega : Z := 2 ^ 63 - 1.

Definition FixedZone (name : string) (offset : Z) : Location :=
  fun _ => mkZone name offset alpha omega.

Definition UTC : Location := fun _ => mkZone "UTC" 0 alpha omega.

Record Time := mkTime { unixSec : Z; loc : Location }.

Definition In (t : Time) (l : Location) : Time := mkTime (unixSec t) l.

(** *** Proleptic Gregorian calendar *)

Definition isLeap (year : Z) : bool :=
  (year mod 4 =? 0) && (negb (year mod 100 =? 0) || (year mod 400 =? 0)).

Definition daysIn (month year : Z) : Z :=
  if month =? 2 then (if isLeap year then 29 else 28)
  else if (month =? 4) || (month =? 6) || (month =? 9) || (month =? 11) then 30
  else 31.

(** Days from 1970-01-01 to the given civil date ([month] in 1..12; a
    [day] outside the month counts on into the neighbouring months, as in
    [time.Date]). *)
Definition daysFromCivil (year month day : Z) : Z :=
  let y := if month <=? 2 then year - 1 else year in
  let era := y / 400 in
  let yoe := y - era * 400 in
  let mp := if month <=? 2 then month + 9 else month - 3 in
  let doy := (153 * mp + 2) / 5 + day - 1 in
  let doe := yoe * 365 + yoe / 4 - yoe / 100 + doy in
  era * 146097 + doe - 719468.

Definition civilFromDays (days : Z) : Z * Z * Z :=
  let z := days + 719468 in
  let era := z / 146097 in
  let doe := z - era * 146097 in
  let yoe := (doe - doe / 1460 + doe / 36524 - doe / 146096) / 365 in
  let doy := doe - (365 * yoe + yoe / 4 - yoe / 100) in
  let mp := (5 * doy + 2) / 153 in
  let d := doy - (153 * mp + 2) / 5 + 1 in
  let m := if mp <? 10 then mp + 3 else mp - 9 in
  let y := yoe + era * 400 in
  (if m <=? 2 then y + 1 else y, m, d).

(** Wall-clock seconds (seconds since the epoch read as if in UTC) shown
    by [t] in its location. *)
Definition wallSec (t : Time) : Z := unixSec t + zoneOffset (loc t (unixSec t)).

(** [time.Date]: the instant at which [l] shows the given wall clock.  The
    fields are carried into each other before use, which leaves the count
    of seconds below unchanged; the zone offset is then guessed and
    corrected once, as in the library. *)
Definition Date (year month day hour min sec : Z) (l : Location) : Time :=
  let m := month - 1 in
  let year := year + m / 12 in
  let month := m mod 12 + 1 in
  let unix := daysFromCivil year month day * 86400 + hour * 3600 + min * 60 + sec in
  let z := l unix in
  if zoneOffset z =? 0 then mkTime unix l
  else
    let utc := unix - zoneOffset z in
    let offset :=
      if (utc <? zoneStart z) || (zoneEnd z <=? utc)
      then zoneOffset (l utc) else zoneOffset z in
    mkTime (unix - offset) l.

Definition AddDate (t : Time) (years months days : Z) : Time :=
  let w := wallSec t in
  let '(year, month, day) := civilFromDays (w / 86400) in
  let s := w mod 86400 in
  Date (year + years) (month + months) (day + days)
       (s / 3600) (s mod 3600 / 60) (s mod 60) (loc t).

(** *** Printing *)

Definition digitChar (d : Z) : ascii := ascii_of_N (Z.to_N (48 + d)).

Fixpoint digitsOf (fuel : nat) (u : Z) (acc : string) : string :=
  match fuel with
  | O => acc
  | S fuel' =>
    let acc' := String (digitChar (u mod 10)) acc in
    if u / 10 =? 0 then acc' else digitsOf fuel' (u / 10) acc'
  end.

Fixpoint zeros (n : nat) : string :=
  match n with O => "" | S n' => String "0" (zeros n') end.

(** [appendInt]: decimal, with a sign when negative, padded with zeros to
    [width] digits. *)
Definition appendInt (x : Z) (width : nat) : string :=
  let ds := digitsOf (S (Z.to_nat (Z.log2 (Z.abs x)))) (Z.abs x) "" in
  (if x <? 0 then "-" else "") ++ zeros (width - String.length ds) ++ ds.

(** The zone field [MST]: the abbreviation, or the numeric offset when
    the zone has none. *)
Definition zoneField (z : zone) : string :=
  if (zoneName z =? "")%string
  then
    let mins := Z.quot (zoneOffset z) 60 in
    (if mins <? 0 then "-" else "+")
      ++ appendInt (Z.quot (Z.abs mins) 60) 2 ++ appendInt (Z.rem (Z.abs mins) 60) 2
  else zoneName z.

(** [t.Format("2006-01-02 15:04:05 MST")]. *)
Definition Format (t : Time) : string :=
  let w := wallSec t in
  let '(year, month, day) := civilFromDays (w / 86400) in
  let s := w mod 86400 in
  appendInt year 4 ++ "-" ++ appendInt month 2 ++ "-" ++ appendInt day 2 ++ " "
    ++ appendInt (s / 3600) 2 ++ ":" ++ appendInt (s mod 3600 / 60) 2 ++ ":"
    ++ appendInt (s mod 60) 2 ++ " " ++ zoneField (loc t (unixSec t)).

(** *** Parsing *)

Definition allDigits (s : string) : bool :=
  forallb fmt.isDigit (list_ascii_of_string s).

(** [parseUint] of [parseRFC3339]: an unsigned decimal within a range. *)
Definition parseUint (s : string) (min max : Z) : option Z :=
  if allDigits s
  then let x := fmt.digitsValue (list_ascii_of_string s) in
       if (x <? min) || (max <? x) then None else Some x
  else None.

Definition byteIs (s : string) (i : nat) (c : ascii) : bool :=
  match String.get i s with
  | Some c' => Ascii.eqb c' c
  | None => false
  end.

(** The suffix of [s] after an optional fraction of a second. *)
Definition skipFraction (s : string) : string :=
  match s with
  | String "." (String d r) =>
    if fmt.isDigit d then snd (fmt.scanDigits r) else s
  | _ => s
  end.

(** The zone designator: [Z], or a sign and [hh:mm]; seconds east. *)
Definition parseZone (s : string) : option Z :=
  if (s =? "Z")%string then Some 0
  else if negb (String.length s =? 6)%nat then None
  else
    match parseUint (substring 1 2 s) 0 23, parseUint (substring 4 2 s) 0 59 with
    | Some hr, Some mm =>
      if (byteIs s 0 "-" || byteIs s 0 "+") && byteIs s 3 ":"
      then let off := (hr * 60 + mm) * 60 in
           Some (if byteIs s 0 "-" then - off else off)
      else None
    | _, _ => None
    end.

(** [time.Parse(time.RFC3339, value)], [None] for a non-nil error: the
    grammar of the library's RFC 3339 parser, which is the one the store's
    timestamps are written in.  (The library then retries a rejected string
    with its general layout parser, which lets a few irregular spellings
    through; the properties below hold for every string whatever the parser
    makes of it, the empty string apart, which both reject.)  The zone the
    library attaches to the result is of no consequence here, the program
    moves the result to its own location before printing. *)
Definition Parse_RFC3339 (value : string) : option Time :=
  if (String.length value <? 19)%nat then None
  else
    match parseUint (substring 0 4 value) 0 9999,
          parseUint (substring 5 2 value) 1 12 with
    | Some year, Some month =>
      match parseUint (substring 8 2 value) 1 (daysIn month year),
            parseUint (substring 11 2 value) 0 23,
            parseUint (substring 14 2 value) 0 59,
            parseUint (substring 17 2 value) 0 59 with
      | Some day, Some hour, Some min, Some sec =>
        if byteIs value 4 "-" && byteIs value 7 "-" && byteIs value 10 "T"
           && byteIs value 13 ":" && byteIs value 16 ":"
        then
          match parseZone (skipFraction (strings.drop 19 value)) with
          | Some off =>
            let t := Date year month day hour min sec UTC in
            Some (mkTime (unixSec t - off) (FixedZone "" off))
          | None => None
          end
        else None
      | _, _, _, _ => None
      end
    | _, _ => None
    end.

End time.

(** ** The records of [main.go] *)

Module Game.
Record t := mk {
  Title : string;
  Description : string;
  ImageURL : string;
  URL : string;
  Status : string;          (* "free" or "coming soon" *)
  StartDate : string;
  EndDate : string;
  DatePrecision : string;   (* "exact", "estimated", or "unknown" *)
  Publisher : string
}.

Definition set_ImageURL (g : t) (v : string) : t :=
  mk (Title g) (Description g) v (URL g) (Status g) (StartDate g) (EndDate g)
     (DatePrecision g) (Publisher g).
Definition set_URL (g : t) (v : string) : t :=
  mk (Title g) (Description g) (ImageURL g) v (Status g) (StartDate g) (EndDate g)
     (DatePrecision g) (Publisher g).
Definition set_Status (g : t) (v : string) : t :=
  mk (Title g) (Description g) (ImageURL g) (URL g) v (StartDate g) (EndDate g)
     (DatePrecision g) (Publisher g).
Definition set_StartDate (g : t) (v : string) : t :=
  mk (Title g) (Description g) (ImageURL g) (URL g) (Status g) v (EndDate g)
     (DatePrecision g) (Publisher g).
Definition set_EndDate (g : t) (v : string) : t :=
  mk (Title g) (Description g) (ImageURL g) (URL g) (Status g) (StartDate g) v
     (DatePrecision g) (Publisher g).
Definition set_DatePrecision (g : t) (v : string) : t :=
  mk (Title g) (Description g) (ImageURL g) (URL g) (Status g) (StartDate g) (EndDate g)
     v (Publisher g).
End Game.

(** The element type of [GraphQLResponse], with its nested structs
    flattened; the fields the loop never reads ([productSlug], [url],
    [urlSlug], [linkedOffer], [categories], [namespace], [id],
    [originalPrice], [pageType], [discountType]) are left out. *)

Module KeyImage.
Record t := mk { Type_ : string; URL : string }.
End KeyImage.

Module Mapping.
Record t := mk { PageSlug : string }.
End Mapping.

Module Promo.
Record t := mk {
  StartDate : string;
  EndDate : string;
  DiscountPercentage : Z
}.
End Promo.

Module Offer.
Record t := mk { PromotionalOffers : list Promo.t }.
End Offer.

Module Element.
Record t := mk {
  Title : string;
  Description : string;
  SellerName : string;
  KeyImages : list KeyImage.t;
  OfferMappings : list Mapping.t;
  CatalogNsMappings : list Mapping.t;
  DiscountPrice : string;
  PromotionalOffers : list Offer.t;
  UpcomingPromotionalOffers : list Offer.t
}.
End Element.

(** ** The loop of [fetchFreeGames] *)

(** The first key image of type [Thumbnail] or [DieselGameBox]. *)
Fixpoint thumbnail (imgs : list KeyImage.t) (imageURL : string) : string :=
  match imgs with
  | [] => imageURL
  | img :: rest =>
    if (KeyImage.Type_ img =? "Thumbnail")%string
       || (KeyImage.Type_ img =? "DieselGameBox")%string
    then KeyImage.URL img                                   (* break *)
    else thumbnail rest imageURL
  end.

(** One of the two slug loops: the first non-empty [PageSlug]. *)
Fixpoint firstSlug (mappings : list Mapping.t) (pageSlug : string) : string :=
  match mappings with
  | [] => pageSlug
  | mapping :: rest =>
    if negb (Mapping.PageSlug mapping =? "")%string
    then Mapping.PageSlug mapping                           (* break *)
    else firstSlug rest pageSlug
  end.

Definition resolveSlug (element : Element.t) : string :=
  let pageSlug := "" in
  let pageSlug := firstSlug (Element.OfferMappings element) pageSlug in
  if (pageSlug =? "")%string
  then firstSlug (Element.CatalogNsMappings element) pageSlug
  else pageSlug.

Definition storeURL (pageSlug : string) : string :=
  fmt.Sprintf_s "https://store.epicgames.com/en-US/p/" pageSlug.

Definition isFreePrice (price : string) : bool :=
  (price =? "$0.00")%string || (price =? "0")%string || (price =? "")%string
  || strings.Contains (strings.ToLower price) "free".

Section FetchFreeGames.

(** The time zone database of the host: what [time.LoadLocation] finds
    under a name other than the two it answers by itself. *)
Variable zoneinfo : string -> option time.Location.

Definition LoadLocation (name : string) : option time.Location :=
  if (name =? "")%string || (name =? "UTC")%string then Some time.UTC
  else zoneinfo name.

(** The [location] the closure [formatDate] prints in. *)
Definition formatDate_location (timezone : string) : time.Location :=
  match LoadLocation timezone with
  | Some location => location
  | None =>
    if strings.HasPrefix timezone "UTC" || strings.HasPrefix timezone "GMT"
    then
      let offsetStr :=
        strings.TrimPrefix (strings.TrimPrefix timezone "UTC") "GMT" in
      if (offsetStr =? "")%string then time.UTC
      else
        match fmt.Sscanf_d offsetStr with
        | Some offsetHours =>
          time.FixedZone timezone (wrap64 (wrap64 (offsetHours * 60) * 60))
        | None => time.FixedZone "UTC+8" (8 * 60 * 60)
        end
    else time.FixedZone "UTC+8" (8 * 60 * 60)
  end.

Definition formatDate (timezone dateStr : string) : string :=
  match time.Parse_RFC3339 dateStr with
  | None => dateStr
  | Some t => time.Format (time.In t (formatDate_location timezone))
  end.

(** Body of the two promotion scans: a sub-offer at 100% sets the flag,
    the status, both dates and the precision. *)
Definition scanPromo (timezone status : string)
    (st : bool * Game.t) (promo : Promo.t) : bool * Game.t :=
  if Promo.DiscountPercentage promo =? 100
  then
    let game := snd st in
    let game := Game.set_Status game status in
    let game := Game.set_StartDate game (formatDate timezone (Promo.StartDate promo)) in
    let game := Game.set_EndDate game (formatDate timezone (Promo.EndDate promo)) in
    let game := Game.set_DatePrecision game "exact" in
    (true, game)
  else st.

Definition scanOffers (timezone status : string)
    (offers : list Offer.t) (st : bool * Game.t) : bool * Game.t :=
  fold_left
    (fun st offer => fold_left (scanPromo timezone status) (Offer.PromotionalOffers offer) st)
    offers st.

(** The [location] of the price branch. *)
Definition estimate_location (timezone : string) : time.Location :=
  match LoadLocation timezone with
  | Some location => location
  | None => time.FixedZone "UTC+8" (8 * 60 * 60)
  end.

(** The price branch, [clock] being what [time.Now()] reads. *)
Definition estimateDates (timezone : string) (clock : Z) (game : Game.t) : Game.t :=
  let game := Game.set_Status game "free" in
  let now := time.In (time.mkTime clock time.UTC) (estimate_location timezone) in
  let endDate := time.AddDate now 0 0 7 in
  let game := Game.set_StartDate game (time.Format now) in
  let game := Game.set_EndDate game (time.Format endDate) in
  Game.set_DatePrecision game "estimated".

(** The rescan of the current promotions: the first offer whose first
    sub-offer has both dates. *)
Fixpoint fallbackDates (timezone : string) (offers : list Offer.t) (game : Game.t) : Game.t :=
  match offers with
  | [] => game
  | offer :: rest =>
    match Offer.PromotionalOffers offer with
    | promo :: _ =>
      if negb (Promo.StartDate promo =? "")%string && negb (Promo.EndDate promo =? "")%string
      then
        let game := Game.set_StartDate game (formatDate timezone (Promo.StartDate promo)) in
        let game := Game.set_EndDate game (formatDate timezone (Promo.EndDate promo)) in
        Game.set_DatePrecision game "exact"               (* break *)
      else fallbackDates timezone rest game
    | [] => fallbackDates timezone rest game
    end
  end.

Definition needsFallback (game : Game.t) : bool :=
  (Game.Status game =? "free")%string
  && ((Game.StartDate game =? "")%string && (Game.EndDate game =? "")%string
      || (Game.DatePrecision game =? "estimated")%string).

(** The rescan stage.  The line it logs for a record that stays
    "estimated" changes nothing in the record and is not modelled. *)
Definition fallbackStage (timezone : string) (element : Element.t) (game : Game.t) : Game.t :=
  if needsFallback game
  then fallbackDates timezone (Element.PromotionalOffers element) game
  else game.

Definition unknownGuard (game : Game.t) : Game.t :=
  if (Game.StartDate game =? "")%string && (Game.EndDate game =? "")%string
  then
    let game := Game.set_StartDate game "Unknown" in
    let game := Game.set_EndDate game "Unknown" in
    Game.set_DatePrecision game "unknown"
  else game.

(** The record under construction when the loop body reaches the
    fallback stage, or [None] when the body ran into a [continue]. *)
Definition classify (includeUpcoming : bool) (timezone : string) (clock : Z)
    (element : Element.t) : option Game.t :=
  let game :=
    Game.mk (Element.Title element) (Element.Description element) "" "" "" "" "" ""
            (Element.SellerName element) in
  let game := Game.set_ImageURL game (thumbnail (Element.KeyImages element) (Game.ImageURL game)) in
  let pageSlug := resolveSlug element in
  let game := Game.set_URL game (storeURL pageSlug) in
  let isCurrentlyFree := false in
  let hasUpcomingFree := false in
  let '(isCurrentlyFree, game) :=
    scanOffers timezone "free" (Element.PromotionalOffers element) (isCurrentlyFree, game) in
  let '(hasUpcomingFree, game) :=
    if negb isCurrentlyFree && includeUpcoming
    then scanOffers timezone "coming soon" (Element.UpcomingPromotionalOffers element)
                    (hasUpcomingFree, game)
    else (hasUpcomingFree, game) in
  let priced :=
    if negb isCurrentlyFree && negb hasUpcomingFree
    then
      let price := Element.DiscountPrice element in
      if isFreePrice price then Some (estimateDates timezone clock game)
      else None                                           (* continue *)
    else Some game in
  match priced with
  | None => None
  | Some game =>
    if negb includeUpcoming && (Game.Status game =? "coming soon")%string
    then None                                             (* continue *)
    else Some game
  end.

(** The whole loop body: the record appended for [element], if any. *)
Definition convertElement (includeUpcoming : bool) (timezone : string) (clock : Z)
    (element : Element.t) : option Game.t :=
  match classify includeUpcoming timezone clock element with
  | None => None
  | Some game => Some (unknownGuard (fallbackStage timezone element game))
  end.

(** The loop: [clock i] is the reading of [time.Now()] while the element
    at index [i] is processed. *)
Fixpoint convertFrom (includeUpcoming : bool) (timezone : string) (clock : nat -> Z)
    (i : nat) (elements : list Element.t) : list Game.t :=
  match elements with
  | [] => []
  | element :: rest =>
    match convertElement includeUpcoming timezone (clock i) element with
    | Some game => game :: convertFrom includeUpcoming timezone clock (S i) rest
    | None => convertFrom includeUpcoming timezone clock (S i) rest
    end
  end.

(** [fetchFreeGames] on the outcome of the upstream call: an error
    message, or the decoded elements. *)
Definition fetchFreeGames (includeUpcoming : bool) (timezone : string) (clock : nat -> Z)
    (upstream : string + list Element.t) : list Game.t + string :=
  match upstream with
  | inl err => inr err
  | inr elements => inl (convertFrom includeUpcoming timezone clock 0 elements)
  end.

End FetchFreeGames.

(** ** [discord.go] *)

Module DiscordEmbedField.
Record t := mk { Name : string; Value : string; Inline : bool }.
End DiscordEmbedField.

Module DiscordEmbed.
Record t := mk {
  Title : string;
  Description : string;
  URL : string;
  Color : Z;
  Timestamp : string;
  Fields : list DiscordEmbedField.t;
  Thumbnail : option string;       (* the thumbnail's URL *)
  Footer : option string           (* the footer's text *)
}.
End DiscordEmbed.

Module DiscordWebhookMessage.
Record t := mk {
  Content : string;
  Embeds : list DiscordEmbed.t
}.
End DiscordWebhookMessage.

(** [createGameEmbed]; [timestamp] is [time.Now().Format(time.RFC3339)] as
    read by this call. *)
Definition createGameEmbed (timestamp : string) (game : Game.t) : DiscordEmbed.t :=
  let color := 30962 (* 0x0078F2 *) in
  let color :=
    if (Game.Status game =? "free")%string then 3066993 (* 0x2ECC71 *)
    else if (Game.Status game =? "coming soon")%string then 15844367 (* 0xF1C40F *)
    else color in
  let fields : list DiscordEmbedField.t := [] in
  let fields :=
    if negb (Game.Publisher game =? "")%string
    then (fields ++ [DiscordEmbedField.mk "Publisher" (Game.Publisher game) true])%list
    else fields in
  let statusText := "Currently Free" in
  let statusText :=
    if (Game.Status game =? "coming soon")%string then "Coming Soon" else statusText in
  let fields := (fields ++ [DiscordEmbedField.mk "Status" statusText true])%list in
  let fields :=
    if negb (Game.StartDate game =? "Unknown")%string
    then (fields ++ [DiscordEmbedField.mk "Available From" (Game.StartDate game) false])%list
    else fields in
  let fields :=
    if negb (Game.EndDate game =? "Unknown")%string
    then (fields ++ [DiscordEmbedField.mk "Available Until" (Game.EndDate game) false])%list
    else fields in
  let thumbnail :=
    if negb (Game.ImageURL game =? "")%string then Some (Game.ImageURL game) else None in
  let precisionText :=
    if (Game.DatePrecision game =? "exact")%string then "Dates are exact"
    else if (Game.DatePrecision game =? "estimated")%string then "Dates are estimated"
    else if (Game.DatePrecision game =? "unknown")%string then "Dates are unknown"
    else "" in
  DiscordEmbed.mk (Game.Title game) (Game.Description game) (Game.URL game) color
                  timestamp fields thumbnail (Some precisionText).

(** The loop over [games] that fills [message.Embeds]; [i] is the loop
    index and [timestamp i] the clock as the call for index [i] prints it. *)
Fixpoint appendEmbeds (timestamp : nat -> string) (i : nat) (games : list Game.t)
    (embeds : list DiscordEmbed.t) : list DiscordEmbed.t :=
  match games with
  | [] => embeds
  | game :: rest =>
    if (10 <=? i)%nat then embeds                           (* break *)
    else appendEmbeds timestamp (S i) rest (embeds ++ [createGameEmbed (timestamp i) game])%list
  end.

(** [SendDiscordNotification].  The effect is the list of messages posted
    to the webhook, the value is the error returned ([None] for nil).
    [respond] is the outcome of the POST: a transport error, or the status
    code of the response. *)
Definition SendDiscordNotification (timestamp : nat -> string)
    (respond : DiscordWebhookMessage.t -> string + Z) (games : list Game.t)
    : list DiscordWebhookMessage.t * option string :=
  if (List.length games =? 0)%nat then ([], None)
  else
    let message :=
      DiscordWebhookMessage.mk "🎮 Free Games from Epic Games Store 🎮" [] in
    let message :=
      DiscordWebhookMessage.mk (DiscordWebhookMessage.Content message)
        (appendEmbeds timestamp 0 games (DiscordWebhookMessage.Embeds message)) in
    match respond message with
    | inl err => ([message], Some ("error sending webhook request: " ++ err))
    | inr status =>
      if (status <? 200) || (300 <=? status)
      then ([message], Some "Discord webhook returned non-2xx status code")
      else ([message], None)
    end.

(** ** Notions of the specification *)

(** A host without a time zone database: [time.LoadLocation] then only
    answers for the two names it knows by itself. *)
Definition noZoneinfo : string -> option time.Location := fun _ => None.

Definition isFreePromo (promo : Promo.t) : bool :=
  Promo.DiscountPercentage promo =? 100.

(** The sub-offers at 100% of a promotions list, in iteration order. *)
Definition freePromos (offers : list Offer.t) : list Promo.t :=
  filter isFreePromo (flat_map Offer.PromotionalOffers offers).

(** [game] with the status given, the dates of [promo] as [formatDate]
    prints them, and precision "exact". *)
Definition withPromo (zoneinfo : string -> option time.Location)
    (timezone status : string) (promo : Promo.t) (game : Game.t) : Game.t :=
  Game.mk (Game.Title game) (Game.Description game) (Game.ImageURL game) (Game.URL game)
          status
          (formatDate zoneinfo timezone (Promo.StartDate promo))
          (formatDate zoneinfo timezone (Promo.EndDate promo))
          "exact" (Game.Publisher game).

(** C1 as it is written: the entry is emitted as "free" and "exact", with
    the dates of the last sub-offer at 100% of its current promotions. *)
Definition emitsLastFreePromo (zoneinfo : string -> option time.Location)
    (includeUpcoming : bool) (timezone : string) (clock : Z)
    (element : Element.t) (promo : Promo.t) : Prop :=
  exists game,
    convertElement zoneinfo includeUpcoming timezone clock element = Some game
    /\ Game.Status game = "free"
    /\ Game.DatePrecision game = "exact"
    /\ Game.StartDate game = formatDate zoneinfo timezone (Promo.StartDate promo)
    /\ Game.EndDate game = formatDate zoneinfo timezone (Promo.EndDate promo).

(** An entry whose only promotion is at 100% and carries no dates. *)
Definition undatedFreeElement : Element.t :=
  Element.mk "Undated" "" "Studio" [] [] [] "$19.99"
             [Offer.mk [Promo.mk "" "" 100]] [].

(** The record as the loop body has it before the promotion scans. *)
Definition initialGame (element : Element.t) : Game.t :=
  Game.mk (Element.Title element) (Element.Description element)
          (thumbnail (Element.KeyImages element) "")
          (storeURL (resolveSlug element))
          "" "" "" "" (Element.SellerName element).

(** C2 as it is written, for an entry whose only sub-offers at 100% are
    upcoming ones: "coming soon" when upcoming games are asked for, no
    record when they are not. *)
Definition upcomingOnlyOutcome (zoneinfo : string -> option time.Location)
    (timezone : string) (clock : Z) (element : Element.t) : Prop :=
  (exists game,
      convertElement zoneinfo true timezone clock element = Some game
      /\ Game.Status game = "coming soon")
  /\ convertElement zoneinfo false timezone clock element = None.

(** An entry that costs nothing today and has a give-away announced. *)
Definition zeroPricedUpcomingElement : Element.t :=
  Element.mk "Announced" "" "Studio" [] [] [] "0" []
             [Offer.mk [Promo.mk "2025-04-11T15:00:00.000Z" "2025-04-18T15:00:00.000Z" 100]].

(** An entry on sale at a price, with no give-away. *)
Definition paidElement : Element.t :=
  Element.mk "Paid" "" "Studio" [] [] [] "$19.99"
             [Offer.mk [Promo.mk "2025-04-04T15:00:00.000Z" "2025-04-11T15:00:00.000Z" 50]] [].

(** An offer the rescan stops at: its first sub-offer has both dates. *)
Definition datedHead (offer : Offer.t) : bool :=
  match Offer.PromotionalOffers offer with
  | promo :: _ =>
    negb (Promo.StartDate promo =? "")%string && negb (Promo.EndDate promo =? "")%string
  | [] => false
  end.

(** A free-to-play entry with a discount running on it. *)
Definition zeroPricedDiscountedElement : Element.t :=
  Element.mk "Discounted" "" "Studio" [] [] [] "$0.00"
             [Offer.mk [];
              Offer.mk [Promo.mk "" "2025-04-11T15:00:00.000Z" 75];
              Offer.mk [Promo.mk "2025-04-04T15:00:00.000Z" "2025-04-11T15:00:00.000Z" 50;
                        Promo.mk "2025-05-01T15:00:00.000Z" "2025-05-08T15:00:00.000Z" 25];
              Offer.mk [Promo.mk "2025-06-01T15:00:00.000Z" "2025-06-08T15:00:00.000Z" 10]]
             [].

(** The precisions a scan or the price branch gives. *)
Definition knownPrecision (game : Game.t) : Prop :=
  Game.DatePrecision game = "exact" \/ Game.DatePrecision game = "estimated".

(** The slug of the specification: the first non-empty page slug of the
    offer mappings, else of the catalog mappings, else none. *)
Definition nonEmptySlug (mapping : Mapping.t) : bool :=
  negb (Mapping.PageSlug mapping =? "")%string.

Definition firstNonEmptySlug (mappings : list Mapping.t) : option string :=
  option_map Mapping.PageSlug (find nonEmptySlug mappings).

Definition canonicalSlug (element : Element.t) : string :=
  match firstNonEmptySlug (Element.OfferMappings element) with
  | Some slug => slug
  | None =>
    match firstNonEmptySlug (Element.CatalogNsMappings element) with
    | Some slug => slug
    | None => ""
    end
  end.

(** The cards of the specification: one per record, in order, [i] being
    the position of the first. *)
Fixpoint cardsFrom (timestamp : nat -> string) (i : nat) (games : list Game.t)
    : list DiscordEmbed.t :=
  match games with
  | [] => []
  | game :: rest => createGameEmbed (timestamp i) game :: cardsFrom timestamp (S i) rest
  end.

(** An entry whose give-away has an end date and no start date. *)
Definition halfDatedElement : Element.t :=
  Element.mk "Half dated" "" "Studio" [] [] [] "$19.99"
             [Offer.mk [Promo.mk "" "2025-04-11T15:00:00.000Z" 100]] [].

(** A location that is [offset] seconds east of UTC at every instant. *)
Definition constantOffset (location : time.Location) (offset : Z) : Prop :=
  forall u, time.zoneOffset (location u) = offset.

(** C3 as it is written: the entry is emitted as "free" and "estimated",
    from the clock read in the location [formatDate] prints in to seven
    calendar days later. *)
Definition emitsEstimatedWeek (zoneinfo : string -> option time.Location)
    (includeUpcoming : bool) (timezone : string) (clock : Z)
    (element : Element.t) : Prop :=
  let now := time.mkTime clock (formatDate_location zoneinfo timezone) in
  exists game,
    convertElement zoneinfo includeUpcoming timezone clock element = Some game
    /\ Game.Status game = "free"
    /\ Game.DatePrecision game = "estimated"
    /\ Game.StartDate game = time.Format now
    /\ Game.EndDate game = time.Format (time.AddDate now 0 0 7).

(** The end-to-end scenario of the specification: one entry, no
    promotions, price "$0.00". *)
Definition zeroPricedElement : Element.t :=
  Element.mk "Free to play" "" "Studio" [] [] [] "$0.00" [] [].

(** The specification's "valid signed integer": the string read as a
    whole, one optional sign and then decimal digits only. *)
Definition wholeSignedInteger (s : string) : option Z :=
  let '(neg, body) :=
    match s with
    | String "+" r => (false, r)
    | String "-" r => (true, r)
    | _ => (false, s)
    end in
  if time.allDigits body && negb (body =? "")%string
  then
    let v := fmt.digitsValue (list_ascii_of_string body) in
    let v := if neg then - v else v in
    if fitsInt64 v then Some v else None
  else None.

(** A give-away announced twice over, the way the store lists it: the
    later offer is the one in force. *)
Definition earlierPromo : Promo.t :=
  Promo.mk "2025-03-28T15:00:00.000Z" "2025-04-04T15:00:00.000Z" 100.

Definition laterPromo : Promo.t :=
  Promo.mk "2025-04-04T15:00:00.000Z" "2025-04-11T15:00:00.000Z" 100.

Definition catQuestElement : Element.t :=
  Element.mk "Cat Quest II" "Open-world action-RPG" "Kepler Interactive"
             [KeyImage.mk "OfferImageWide" "https://cdn1.epicgames.com/wide.jpg";
              KeyImage.mk "Thumbnail" "https://cdn1.epicgames.com/thumb.jpg"]
             [Mapping.mk ""; Mapping.mk "cat-quest-ii"]
             [Mapping.mk "cat-quest-ii-catalog"]
             "0"
             [Offer.mk [earlierPromo; Promo.mk "" "" 30]; Offer.mk [laterPromo]]
             [].

(** A paid entry with a give-away announced. *)
Definition announcedElement : Element.t :=
  Element.mk "Announced" "" "Studio" [] [] [Mapping.mk "foo"] "$19.99" []
             [Offer.mk [Promo.mk "2025-04-11T15:00:00.000Z" "2025-04-18T15:00:00.000Z" 100]].

(** ** The configuration helpers and the triggers of [main.go] *)

Module strconv.

(** [strconv.ParseBool], [None] for its syntax error. *)
Definition ParseBool (str : string) : option bool :=
  if (str =? "1")%string || (str =? "t")%string || (str =? "T")%string
     || (str =? "TRUE")%string || (str =? "true")%string || (str =? "True")%string
  then Some true
  else if (str =? "0")%string || (str =? "f")%string || (str =? "F")%string
          || (str =? "FALSE")%string || (str =? "false")%string || (str =? "False")%string
  then Some false
  else None.

(** [strconv.Atoi], [None] for a syntax or range error: one optional sign,
    then decimal digits only, at least one, within 64 bits. *)
Definition Atoi (s : string) : option Z :=
  let '(neg, digits) :=
    match s with
    | String "+" r => (false, r)
    | String "-" r => (true, r)
    | _ => (false, s)
    end in
  if (digits =? "")%string then None
  else if forallb fmt.isDigit (list_ascii_of_string digits)
  then
    let n := fmt.digitsValue (list_ascii_of_string digits) in
    let n := if neg then - n else n in
    if fitsInt64 n then Some n else None
  else None.

End strconv.

(** The verb [%d] of [fmt.Sprintf] on an [int]. *)
Definition Sprint_d (n : Z) : string := time.appendInt n 0.

(** The process environment is what [os.Getenv] answers: the value of a
    variable, the empty string when it is not set.  The warnings the
    helpers log are not modelled. *)
Definition getEnvString (env : string -> string) (key defaultValue : string) : string :=
  let value := env key in
  if (value =? "")%string then defaultValue else value.

Definition getEnvInt (env : string -> string) (key : string) (defaultValue : Z) : Z :=
  let value := env key in
  if (value =? "")%string then defaultValue
  else
    match strconv.Atoi value with
    | None => defaultValue
    | Some intValue => intValue
    end.

Definition getEnvBool (env : string -> string) (key : string) (defaultValue : bool) : bool :=
  let value := env key in
  if (value =? "")%string then defaultValue
  else
    match strconv.ParseBool value with
    | None => defaultValue
    | Some boolValue => boolValue
    end.

Module APIResponse.
Record t := mk {
  Success : bool;
  Message : string;
  Count : Z;
  Data : list Game.t
}.
End APIResponse.

(** What a request to [/api/free-games] leaves behind: the status code
    and the headers written, the response that is encoded as the body, and
    the messages posted to the Discord webhook on the way. *)
Module HandlerResult.
Record t := mk {
  StatusCode : Z;
  Header : list (string * string);
  Body : APIResponse.t;
  Posted : list DiscordWebhookMessage.t
}.
End HandlerResult.

(** What a request to [/notify] leaves behind; the body is the message
    handed to [http.Error], or the two fields of the JSON object of a
    success.  The text of a Discord error is the one
    [SendDiscordNotification] above returns, which does not carry the
    status code. *)
Module RouteResult.
Record t := mk {
  StatusCode : Z;
  Body : string + bool * string;
  Posted : list DiscordWebhookMessage.t
}.
End RouteResult.

Section Triggers.

Variable zoneinfo : string -> option time.Location.

(** The server's settings, then what the surroundings answer during the
    call: the clock, the store, the clock as the cards print it, the
    webhook. *)
Variable timezone : string.
Variable clock : nat -> Z.
Variable upstream : string + list Element.t.
Variable timestamp : nat -> string.
Variable respond : DiscordWebhookMessage.t -> string + Z.

(** [freeGamesHandler]; [upcoming] and [notify] are what
    [r.URL.Query().Get] returns for the two parameters, the empty string
    for a parameter that is not there. *)
Definition freeGamesHandler (webhookURL upcoming notify : string) : HandlerResult.t :=
  let includeUpcoming := true in
  let sendNotification := false in
  let includeUpcoming :=
    if negb (upcoming =? "")%string
    then match strconv.ParseBool upcoming with
         | Some upcomingBool => upcomingBool
         | None => includeUpcoming
         end
    else includeUpcoming in
  let sendNotification :=
    if negb (notify =? "")%string
    then match strconv.ParseBool notify with
         | Some notifyBool => notifyBool && negb (webhookURL =? "")%string
         | None => sendNotification
         end
    else negb (webhookURL =? "")%string in
  let header :=
    [("Content-Type", "application/json"); ("Access-Control-Allow-Origin", "*")] in
  match fetchFreeGames zoneinfo includeUpcoming timezone clock upstream with
  | inr err =>
    HandlerResult.mk 500 header
      (APIResponse.mk false ("Error fetching games: " ++ err) 0 []) []
  | inl games =>
    let posted :=
      if sendNotification
      then if negb (webhookURL =? "")%string
           then fst (SendDiscordNotification timestamp respond games)
           else []
      else [] in
    HandlerResult.mk 200 header
      (APIResponse.mk true "" (Z.of_nat (List.length games)) games) posted
  end.

(** The function [main] registers for [/notify]. *)
Definition notifyRoute (discordWebhook : string) : RouteResult.t :=
  if (discordWebhook =? "")%string
  then RouteResult.mk 500 (inl "Discord webhook URL not configured") []
  else
    match fetchFreeGames zoneinfo true timezone clock upstream with
    | inr err => RouteResult.mk 500 (inl ("Error fetching games: " ++ err)) []
    | inl games =>
      let '(posted, err) := SendDiscordNotification timestamp respond games in
      match err with
      | Some err =>
        RouteResult.mk 500 (inl ("Error sending Discord notification: " ++ err)) posted
      | None =>
        RouteResult.mk 200
          (inr (true, "Notification sent for "
                        ++ Sprint_d (Z.of_nat (List.length games)) ++ " games"))
          posted
      end
    end.

(** The function [setupCronJob] schedules: the messages one run posts. *)
Definition cronJob (webhookURL : string) : list DiscordWebhookMessage.t :=
  match fetchFreeGames zoneinfo true timezone clock upstream with
  | inr _ => []
  | inl games =>
    if negb (webhookURL =? "")%string
    then fst (SendDiscordNotification timestamp respond games)
    else []
  end.

End Triggers.

(** The key images the loop stops at. *)
Definition isThumbnail (img : KeyImage.t) : bool :=
  (KeyImage.Type_ img =? "Thumbnail")%string
  || (KeyImage.Type_ img =? "DieselGameBox")%string.

(** A [notify] parameter that lets the request notify: none at all, or
    one of Go's spellings of true. *)
Definition wantsNotification (notify : string) : bool :=
  (notify =? "")%string
  || match strconv.ParseBool notify with
     | Some true => true
     | _ => false
     end.

(** The [includeUpcoming] a request with parameter [upcoming] runs with. *)
Definition requestedUpcoming (upcoming : string) : bool :=
  match strconv.ParseBool upcoming with
  | Some false => false
  | _ => true
  end.

Definition startsWithDigit (s : string) : bool :=
  match s with
  | String c _ => fmt.isDigit c
  | EmptyString => false
  end.

(** A time zone name made of "UTC" or "GMT", a sign, decimal digits and
    whatever follows them. *)
Definition offsetName (gmt neg : bool) (digits : list ascii) (rest : string) : string :=
  (if gmt then "GMT" else "UTC")
    ++ String (if neg then "-" else "+") (string_of_list_ascii digits ++ rest).

(** * Properties *)

(** ** Strings *)

Lemma string_eqb_refl' (s : string) : (s =? s)%string = true.
Proof. apply String.eqb_refl. Qed.

Lemma string_eqb_false (s t : string) : s <> t -> (s =? t)%string = false.
Proof. intro H. apply String.eqb_neq. exact H. Qed.

Lemma append_nonempty_r (s : string) (c : ascii) (r : string) :
  (s ++ String c r)%string <> "".
Proof. destruct s; simpl; discriminate. Qed.

Lemma prefix_app (pre s : string) :
  String.prefix pre s = true <-> exists rest, s = pre ++ rest.
Proof.
  revert s. induction pre as [| c pre IH]; intro s; simpl.
  - split; [intros _; exists s; reflexivity | intros _; destruct s; reflexivity].
  - destruct s as [| d s].
    + split; [discriminate | intros [rest H]; discriminate H].
    + simpl. destruct (Ascii.ascii_dec c d) as [<- | Hne].
      * rewrite IH. split; intros [rest H]; exists rest.
        -- rewrite H. reflexivity.
        -- injection H as H. exact H.
      * split; [discriminate | intros [rest H]; injection H as H _; congruence].
Qed.

(** [strings.Contains] finds exactly the occurrences of [substr]. *)
Lemma Contains_occurs (s substr : string) :
  strings.Contains s substr = true <-> exists before after, s = before ++ substr ++ after.
Proof.
  induction s as [| c s IH]; cbn [strings.Contains].
  - rewrite orb_false_r, prefix_app. split.
    + intros [rest H]. exists "", rest. exact H.
    + intros [[| d before] [after H]].
      * exists after. exact H.
      * discriminate H.
  - rewrite orb_true_iff, prefix_app, IH. split.
    + intros [[rest H] | [before [after H]]].
      * exists "", rest. exact H.
      * exists (String c before), after. rewrite H. reflexivity.
    + intros [[| d before] [after H]].
      * left. exists after. exact H.
      * right. injection H as _ H. exists before, after. exact H.
Qed.

(** ** Printing and parsing dates *)

Lemma Format_nonempty (t : time.Time) : time.Format t <> "".
Proof.
  unfold time.Format.
  destruct (time.civilFromDays (time.wallSec t / 86400)) as [[year month] day].
  apply append_nonempty_r.
Qed.

Lemma Parse_RFC3339_empty : time.Parse_RFC3339 "" = None.
Proof. reflexivity. Qed.

(** *** The calendar *)

Lemma civil_round_trip (days k : Z) :
  let '(year, month, day) := time.civilFromDays days in
  1 <= month <= 12 /\ time.daysFromCivil year month (day + k) = days + k.
Proof.
  unfold time.civilFromDays, time.daysFromCivil.
  set (z := days + 719468).
  set (era := z / 146097).
  set (doe := z - era * 146097).
  set (yoe := (doe - doe / 1460 + doe / 36524 - doe / 146096) / 365).
  set (doy := doe - (365 * yoe + yoe / 4 - yoe / 100)).
  set (mp := (5 * doy + 2) / 153).
  assert (Hdoe : 0 <= doe < 146097) by (subst doe era; Z.div_mod_to_equations; lia).
  assert (Hy : 0 <= yoe <= 399 /\ 0 <= doy <= 365)
    by (subst doy yoe; Z.div_mod_to_equations; lia).
  assert (Hmp : 0 <= mp <= 11) by (subst mp; Z.div_mod_to_equations; lia).
  assert (Hera : (yoe + era * 400) / 400 = era) by (Z.div_mod_to_equations; lia).
  destruct (Z.ltb_spec mp 10) as [Hlt | Hge].
  - replace (mp + 3 <=? 2) with false by (symmetry; apply Z.leb_gt; lia).
    rewrite Hera. split; [lia |].
    replace (mp + 3 - 3) with mp by lia.
    replace (yoe + era * 400 - era * 400) with yoe by lia.
    subst doy z doe. lia.
  - replace (mp - 9 <=? 2) with true by (symmetry; apply Z.leb_le; lia).
    replace (yoe + era * 400 + 1 - 1) with (yoe + era * 400) by lia.
    rewrite Hera. split; [lia |].
    replace (mp - 9 + 9) with mp by lia.
    replace (yoe + era * 400 - era * 400) with yoe by lia.
    subst doy z doe. lia.
Qed.

Lemma clock_fields (s : Z) :
  s / 3600 * 3600 + s mod 3600 / 60 * 60 + s mod 60 = s.
Proof. Z.div_mod_to_equations. lia. Qed.

(** Adding days in a location whose offset never changes moves the
    instant by as many times 86400 seconds. *)
Lemma AddDate_days_constant (clock : Z) (location : time.Location) (offset days : Z) :
  constantOffset location offset ->
  time.AddDate (time.mkTime clock location) 0 0 days
  = time.mkTime (clock + days * 86400) location.
Proof.
  intro H. unfold time.AddDate, time.wallSec.
  cbn [time.unixSec time.loc]. rewrite H.
  set (w := clock + offset).
  pose proof (civil_round_trip (w / 86400) days) as Hr.
  destruct (time.civilFromDays (w / 86400)) as [[year month] day].
  destruct Hr as [Hm Hd].
  unfold time.Date. cbv zeta.
  replace ((month + 0 - 1) / 12) with 0 by (Z.div_mod_to_equations; lia).
  replace ((month + 0 - 1) mod 12 + 1) with month by (Z.div_mod_to_equations; lia).
  replace (year + 0 + 0) with year by lia.
  rewrite Hd, !H.
  pose proof (clock_fields (w mod 86400)) as Hf.
  assert (Hw : w / 86400 * 86400 + w mod 86400 = w) by (Z.div_mod_to_equations; lia).
  destruct (offset =? 0) eqn:E.
  - apply Z.eqb_eq in E. f_equal. subst w. lia.
  - rewrite Tauto.if_same. f_equal. subst w. lia.
Qed.

Section DateFormatter.

Variable zoneinfo : string -> option time.Location.

Lemma formatDate_empty (timezone : string) : formatDate zoneinfo timezone "" = "".
Proof. reflexivity. Qed.

Lemma formatDate_nonempty (timezone dateStr : string) :
  dateStr <> "" -> formatDate zoneinfo timezone dateStr <> "".
Proof.
  intro H. unfold formatDate.
  destruct (time.Parse_RFC3339 dateStr); [apply Format_nonempty | exact H].
Qed.

Lemma formatDate_eqb_empty (timezone dateStr : string) :
  (formatDate zoneinfo timezone dateStr =? "")%string = (dateStr =? "")%string.
Proof.
  destruct (String.eqb_spec dateStr "") as [-> | H].
  - reflexivity.
  - apply string_eqb_false, formatDate_nonempty, H.
Qed.

End DateFormatter.

(** ** The promotion scans *)

Section Scans.

Variable zoneinfo : string -> option time.Location.
Variables timezone status : string.

Lemma scanPromo_free (st : bool * Game.t) (promo : Promo.t) :
  isFreePromo promo = true ->
  scanPromo zoneinfo timezone status st promo
  = (true, withPromo zoneinfo timezone status promo (snd st)).
Proof.
  unfold isFreePromo, scanPromo. intros ->. reflexivity.
Qed.

Lemma scanPromo_other (st : bool * Game.t) (promo : Promo.t) :
  isFreePromo promo = false ->
  scanPromo zoneinfo timezone status st promo = st.
Proof.
  unfold isFreePromo, scanPromo. intros ->. reflexivity.
Qed.

Lemma scanOffers_flat (offers : list Offer.t) (st : bool * Game.t) :
  scanOffers zoneinfo timezone status offers st
  = fold_left (scanPromo zoneinfo timezone status)
              (flat_map Offer.PromotionalOffers offers) st.
Proof.
  unfold scanOffers. revert st.
  induction offers as [| offer rest IH]; intro st; simpl.
  - reflexivity.
  - rewrite fold_left_app. apply IH.
Qed.

Lemma fold_scanPromo_filter (promos : list Promo.t) (st : bool * Game.t) :
  fold_left (scanPromo zoneinfo timezone status) promos st
  = fold_left (scanPromo zoneinfo timezone status) (filter isFreePromo promos) st.
Proof.
  revert st. induction promos as [| promo rest IH]; intro st; simpl.
  - reflexivity.
  - destruct (isFreePromo promo) eqn:E; simpl.
    + apply IH.
    + rewrite scanPromo_other by exact E. apply IH.
Qed.

(** A later match overwrites everything an earlier one wrote. *)
Lemma withPromo_fold (promo : Promo.t) (promos : list Promo.t) (st : bool * Game.t) :
  withPromo zoneinfo timezone status promo
    (snd (fold_left (scanPromo zoneinfo timezone status) promos st))
  = withPromo zoneinfo timezone status promo (snd st).
Proof.
  revert st. induction promos as [| q rest IH]; intro st; simpl.
  - reflexivity.
  - rewrite IH. unfold scanPromo.
    destruct (Promo.DiscountPercentage q =? 100); reflexivity.
Qed.

Lemma scanOffers_last (offers : list Offer.t) (pre : list Promo.t) (promo : Promo.t)
    (st : bool * Game.t) :
  freePromos offers = (pre ++ [promo])%list ->
  scanOffers zoneinfo timezone status offers st
  = (true, withPromo zoneinfo timezone status promo (snd st)).
Proof.
  intro H. rewrite scanOffers_flat, fold_scanPromo_filter.
  unfold freePromos in H. rewrite H, fold_left_app. simpl.
  assert (Hp : isFreePromo promo = true).
  { assert (Hin : In promo (filter isFreePromo (flat_map Offer.PromotionalOffers offers))).
    { rewrite H. apply in_or_app. right. left. reflexivity. }
    apply filter_In in Hin. apply Hin. }
  rewrite scanPromo_free by exact Hp.
  rewrite withPromo_fold. reflexivity.
Qed.

Lemma scanOffers_none (offers : list Offer.t) (st : bool * Game.t) :
  freePromos offers = [] ->
  scanOffers zoneinfo timezone status offers st = st.
Proof.
  intro H. rewrite scanOffers_flat, fold_scanPromo_filter.
  unfold freePromos in H. rewrite H. reflexivity.
Qed.

End Scans.

(** ** Current promotions at 100% *)

Lemma andb_negb_true_l (b : bool) : negb true && b = false.
Proof. reflexivity. Qed.

Lemma not_both_empty (a b : string) :
  a <> "" \/ b <> "" -> ((a =? "") && (b =? ""))%string = false.
Proof.
  intros [H | H].
  - rewrite (string_eqb_false _ _ H). reflexivity.
  - rewrite (string_eqb_false _ _ H). apply andb_false_r.
Qed.

(** On the record a scan leaves, with dates that are not both empty,
    neither the rescan nor the last guard does anything. *)
Lemma unknownGuard_withPromo (zoneinfo : string -> option time.Location)
    (timezone status : string) (promo : Promo.t) (game : Game.t) :
  Promo.StartDate promo <> "" \/ Promo.EndDate promo <> "" ->
  unknownGuard (withPromo zoneinfo timezone status promo game)
  = withPromo zoneinfo timezone status promo game.
Proof.
  intro H. unfold unknownGuard. cbn [withPromo Game.StartDate Game.EndDate].
  rewrite !formatDate_eqb_empty, (not_both_empty _ _ H). reflexivity.
Qed.

Lemma fallbackStage_withPromo (zoneinfo : string -> option time.Location)
    (timezone status : string) (element : Element.t) (promo : Promo.t) (game : Game.t) :
  Promo.StartDate promo <> "" \/ Promo.EndDate promo <> "" ->
  fallbackStage zoneinfo timezone element (withPromo zoneinfo timezone status promo game)
  = withPromo zoneinfo timezone status promo game.
Proof.
  intro H. unfold fallbackStage, needsFallback.
  cbn [withPromo Game.StartDate Game.EndDate Game.DatePrecision].
  rewrite !formatDate_eqb_empty, (not_both_empty _ _ H).
  change ("exact" =? "estimated")%string with false.
  rewrite andb_false_r. reflexivity.
Qed.

Lemma exact_dates_kept (zoneinfo : string -> option time.Location)
    (timezone status : string) (element : Element.t) (promo : Promo.t) (game : Game.t) :
  Promo.StartDate promo <> "" \/ Promo.EndDate promo <> "" ->
  unknownGuard (fallbackStage zoneinfo timezone element
                  (withPromo zoneinfo timezone status promo game))
  = withPromo zoneinfo timezone status promo game.
Proof.
  intro H. rewrite fallbackStage_withPromo by exact H.
  apply unknownGuard_withPromo, H.
Qed.

Section Classify.

Variable zoneinfo : string -> option time.Location.
Variable timezone : string.
Variable clock : Z.
Variable element : Element.t.

Lemma classify_current (includeUpcoming : bool) (pre : list Promo.t) (promo : Promo.t) :
  freePromos (Element.PromotionalOffers element) = (pre ++ [promo])%list ->
  classify zoneinfo includeUpcoming timezone clock element
  = Some (withPromo zoneinfo timezone "free" promo (initialGame element)).
Proof.
  intro H. unfold classify.
  rewrite (scanOffers_last zoneinfo timezone "free" _ pre promo _ H).
  cbv zeta. cbn [negb andb snd].
  cbn [withPromo Game.Status].
  change ("free" =? "coming soon")%string with false.
  rewrite andb_false_r. reflexivity.
Qed.

Lemma classify_upcoming (pre : list Promo.t) (promo : Promo.t) :
  freePromos (Element.PromotionalOffers element) = [] ->
  freePromos (Element.UpcomingPromotionalOffers element) = (pre ++ [promo])%list ->
  classify zoneinfo true timezone clock element
  = Some (withPromo zoneinfo timezone "coming soon" promo (initialGame element)).
Proof.
  intros Hc Hu. unfold classify.
  rewrite (scanOffers_none zoneinfo timezone "free" _ _ Hc).
  cbv zeta. cbn [negb andb].
  rewrite (scanOffers_last zoneinfo timezone "coming soon" _ pre promo _ Hu).
  reflexivity.
Qed.

Lemma estimateDates_Status (game : Game.t) :
  Game.Status (estimateDates zoneinfo timezone clock game) = "free".
Proof. reflexivity. Qed.

Lemma classify_price (includeUpcoming : bool) :
  freePromos (Element.PromotionalOffers element) = [] ->
  includeUpcoming = false \/ freePromos (Element.UpcomingPromotionalOffers element) = [] ->
  classify zoneinfo includeUpcoming timezone clock element
  = if isFreePrice (Element.DiscountPrice element)
    then Some (estimateDates zoneinfo timezone clock (initialGame element))
    else None.
Proof.
  intros Hc Hu. unfold classify.
  rewrite (scanOffers_none zoneinfo timezone "free" _ _ Hc).
  cbv zeta. cbn [negb andb].
  destruct Hu as [-> | Hu];
    [| rewrite (scanOffers_none zoneinfo timezone "coming soon" _ _ Hu);
       destruct includeUpcoming];
    destruct (isFreePrice (Element.DiscountPrice element)); reflexivity.
Qed.

(** Every record that reaches the later stages comes from one of the
    two scans or from the price branch. *)
Lemma classify_cases (includeUpcoming : bool) (game : Game.t) :
  classify zoneinfo includeUpcoming timezone clock element = Some game ->
  (exists status promo,
      game = withPromo zoneinfo timezone status promo (initialGame element))
  \/ game = estimateDates zoneinfo timezone clock (initialGame element).
Proof.
  intro H.
  destruct (freePromos (Element.PromotionalOffers element)) as [| x l] eqn:Hc.
  - assert (Hprice : forall b,
               b = false \/ freePromos (Element.UpcomingPromotionalOffers element) = [] ->
               classify zoneinfo b timezone clock element = Some game ->
               game = estimateDates zoneinfo timezone clock (initialGame element)).
    { intros b Hb Hg. rewrite (classify_price b Hc Hb) in Hg.
      destruct (isFreePrice (Element.DiscountPrice element)); [| discriminate Hg].
      injection Hg as <-. reflexivity. }
    destruct includeUpcoming.
    + destruct (freePromos (Element.UpcomingPromotionalOffers element)) as [| y k] eqn:Hu.
      * right. apply (Hprice true); [right; reflexivity | exact H].
      * assert (Hne : y :: k <> []) by discriminate.
        destruct (exists_last Hne) as [pre [promo Hlast]]. rewrite Hlast in Hu.
        rewrite (classify_upcoming pre promo Hc Hu) in H.
        injection H as <-. left. eexists. eexists. reflexivity.
    + right. apply (Hprice false); [left; reflexivity | exact H].
  - assert (Hne : x :: l <> []) by discriminate.
    destruct (exists_last Hne) as [pre [promo Hlast]]. rewrite Hlast in Hc.
    rewrite (classify_current includeUpcoming pre promo Hc) in H.
    injection H as <-. left. eexists. eexists. reflexivity.
Qed.

End Classify.

(** C1, amended: an entry with a sub-offer at 100% among its current
    promotions, the last of which has a start date or an end date, is
    emitted with status "free", precision "exact" and the dates of that last
    sub-offer as [formatDate] prints them. *)
Theorem current_free_promo_exact (zoneinfo : string -> option time.Location)
    (includeUpcoming : bool) (timezone : string) (clock : Z)
    (element : Element.t) (pre : list Promo.t) (promo : Promo.t) :
  freePromos (Element.PromotionalOffers element) = (pre ++ [promo])%list ->
  Promo.StartDate promo <> "" \/ Promo.EndDate promo <> "" ->
  emitsLastFreePromo zoneinfo includeUpcoming timezone clock element promo.
Proof.
  intros Hlast Hdate.
  unfold emitsLastFreePromo, convertElement.
  rewrite (classify_current zoneinfo timezone clock element includeUpcoming pre promo Hlast).
  rewrite exact_dates_kept by exact Hdate.
  eexists. split; [reflexivity |]. repeat split.
Qed.

(** At an entry whose last sub-offer at 100% has neither date, C1 as
    written fails: the record is emitted with precision "unknown". *)
Lemma undated_free_promo_not_exact :
  freePromos (Element.PromotionalOffers undatedFreeElement) = [Promo.mk "" "" 100]
  /\ ~ emitsLastFreePromo noZoneinfo true "UTC" 0 undatedFreeElement (Promo.mk "" "" 100).
Proof.
  split; [reflexivity |].
  intros [game [Hc [_ [Hp _]]]].
  vm_compute in Hc. injection Hc as <-. discriminate Hp.
Qed.

(** ** What the later stages keep *)

Section Stages.

Variable zoneinfo : string -> option time.Location.
Variable timezone : string.

Lemma fallbackDates_Status (offers : list Offer.t) (game : Game.t) :
  Game.Status (fallbackDates zoneinfo timezone offers game) = Game.Status game.
Proof.
  induction offers as [| offer rest IH]; simpl; [reflexivity |].
  destruct (Offer.PromotionalOffers offer) as [| promo ?]; [exact IH |].
  destruct (negb (Promo.StartDate promo =? "")%string
            && negb (Promo.EndDate promo =? "")%string); [reflexivity | exact IH].
Qed.

Lemma fallbackStage_Status (element : Element.t) (game : Game.t) :
  Game.Status (fallbackStage zoneinfo timezone element game) = Game.Status game.
Proof.
  unfold fallbackStage. destruct (needsFallback game); [apply fallbackDates_Status | reflexivity].
Qed.

Lemma unknownGuard_Status (game : Game.t) :
  Game.Status (unknownGuard game) = Game.Status game.
Proof.
  unfold unknownGuard.
  destruct ((Game.StartDate game =? "")%string && (Game.EndDate game =? "")%string);
    reflexivity.
Qed.

End Stages.

(** ** Upcoming promotions and paid entries *)

Lemma isFreePrice_false (price : string) :
  price <> "$0.00" -> price <> "0" -> price <> "" ->
  strings.Contains (strings.ToLower price) "free" = false ->
  isFreePrice price = false.
Proof.
  intros H1 H2 H3 H4. unfold isFreePrice.
  rewrite (string_eqb_false _ _ H1), (string_eqb_false _ _ H2), (string_eqb_false _ _ H3), H4.
  reflexivity.
Qed.

(** C2, amended: an entry with no sub-offer at 100% among its current
    promotions and one among its upcoming promotions is emitted with status
    "coming soon" when upcoming games are asked for; when they are not, it
    is left out if its discount price is not one of the free price strings,
    and emitted with status "free" through the price branch if it is. *)
Theorem upcoming_only_outcome (zoneinfo : string -> option time.Location)
    (timezone : string) (clock : Z) (element : Element.t) :
  freePromos (Element.PromotionalOffers element) = [] ->
  freePromos (Element.UpcomingPromotionalOffers element) <> [] ->
  (exists game,
      convertElement zoneinfo true timezone clock element = Some game
      /\ Game.Status game = "coming soon")
  /\ (isFreePrice (Element.DiscountPrice element) = false ->
      convertElement zoneinfo false timezone clock element = None)
  /\ (isFreePrice (Element.DiscountPrice element) = true ->
      exists game,
        convertElement zoneinfo false timezone clock element = Some game
        /\ Game.Status game = "free").
Proof.
  intros Hc Hu.
  destruct (exists_last Hu) as [pre [promo Hlast]].
  unfold convertElement. repeat split.
  - rewrite (classify_upcoming zoneinfo timezone clock element pre promo Hc Hlast).
    eexists. split; [reflexivity |].
    rewrite unknownGuard_Status, fallbackStage_Status. reflexivity.
  - intro Hp.
    rewrite (classify_price zoneinfo timezone clock element false Hc (or_introl eq_refl)), Hp.
    reflexivity.
  - intro Hp.
    rewrite (classify_price zoneinfo timezone clock element false Hc (or_introl eq_refl)), Hp.
    eexists. split; [reflexivity |].
    rewrite unknownGuard_Status, fallbackStage_Status. reflexivity.
Qed.

(** With upcoming games not asked for, an entry that costs nothing today
    and has a give-away announced is emitted all the same: C2 as written
    fails there. *)
Lemma zero_priced_upcoming_emitted :
  freePromos (Element.PromotionalOffers zeroPricedUpcomingElement) = []
  /\ freePromos (Element.UpcomingPromotionalOffers zeroPricedUpcomingElement) <> []
  /\ ~ upcomingOnlyOutcome noZoneinfo "UTC" 0 zeroPricedUpcomingElement.
Proof.
  split; [reflexivity |]. split; [discriminate |].
  intros [_ H]. vm_compute in H. discriminate H.
Qed.

(** The records of a response are those of its elements, in order. *)
Lemma convertFrom_app (zoneinfo : string -> option time.Location)
    (includeUpcoming : bool) (timezone : string) (clock : nat -> Z)
    (i : nat) (before after : list Element.t) :
  convertFrom zoneinfo includeUpcoming timezone clock i (before ++ after)
  = (convertFrom zoneinfo includeUpcoming timezone clock i before
     ++ convertFrom zoneinfo includeUpcoming timezone clock (i + List.length before) after)%list.
Proof.
  revert i. induction before as [| element rest IH]; intro i; simpl.
  - rewrite Nat.add_0_r. reflexivity.
  - rewrite IH, <- plus_n_Sm.
    destruct (convertElement zoneinfo includeUpcoming timezone (clock i) element); reflexivity.
Qed.

(** C5: an entry with no sub-offer at 100% in either promotions list and a
    discount price that is none of "$0.00", "0", "" and does not contain
    "free" in any letter case yields no record, and the response's records
    are those of the other entries. *)
Theorem paid_entry_not_emitted (zoneinfo : string -> option time.Location)
    (includeUpcoming : bool) (timezone : string) (clock : nat -> Z)
    (before after : list Element.t) (element : Element.t) :
  freePromos (Element.PromotionalOffers element) = [] ->
  freePromos (Element.UpcomingPromotionalOffers element) = [] ->
  Element.DiscountPrice element <> "$0.00" ->
  Element.DiscountPrice element <> "0" ->
  Element.DiscountPrice element <> "" ->
  strings.Contains (strings.ToLower (Element.DiscountPrice element)) "free" = false ->
  convertElement zoneinfo includeUpcoming timezone
                 (clock (List.length before)) element = None
  /\ fetchFreeGames zoneinfo includeUpcoming timezone clock
       (inr (before ++ element :: after)%list)
     = inl (convertFrom zoneinfo includeUpcoming timezone clock 0 before
            ++ convertFrom zoneinfo includeUpcoming timezone clock
                 (S (List.length before)) after)%list.
Proof.
  intros Hc Hu H1 H2 H3 H4.
  assert (E : forall c, convertElement zoneinfo includeUpcoming timezone c element = None).
  { intro c. unfold convertElement.
    rewrite (classify_price zoneinfo timezone c element includeUpcoming Hc (or_intror Hu)).
    rewrite (isFreePrice_false _ H1 H2 H3 H4). reflexivity. }
  split; [apply E |].
  unfold fetchFreeGames. rewrite convertFrom_app. simpl. rewrite E.
  reflexivity.
Qed.

(** ** The rescan of the current promotions *)

Section Fallback.

Variable zoneinfo : string -> option time.Location.
Variable timezone : string.

Lemma fallbackDates_first (before after : list Offer.t) (offer : Offer.t)
    (promo : Promo.t) (others : list Promo.t) (game : Game.t) :
  (forall o, In o before -> datedHead o = false) ->
  Offer.PromotionalOffers offer = promo :: others ->
  Promo.StartDate promo <> "" ->
  Promo.EndDate promo <> "" ->
  fallbackDates zoneinfo timezone (before ++ offer :: after) game
  = withPromo zoneinfo timezone (Game.Status game) promo game.
Proof.
  intros Hb Ho Hs He.
  induction before as [| o rest IH]; simpl.
  - rewrite Ho, (string_eqb_false _ _ Hs), (string_eqb_false _ _ He). reflexivity.
  - assert (Hd : datedHead o = false) by (apply Hb; left; reflexivity).
    assert (IH' := IH (fun o' Hin => Hb o' (or_intror Hin))).
    unfold datedHead in Hd.
    destruct (Offer.PromotionalOffers o) as [| q ?]; [exact IH' |].
    rewrite Hd. exact IH'.
Qed.

Lemma fallbackDates_none (offers : list Offer.t) (game : Game.t) :
  (forall o, In o offers -> datedHead o = false) ->
  fallbackDates zoneinfo timezone offers game = game.
Proof.
  intro Hb. induction offers as [| o rest IH]; simpl; [reflexivity |].
  assert (Hd : datedHead o = false) by (apply Hb; left; reflexivity).
  assert (IH' := IH (fun o' Hin => Hb o' (or_intror Hin))).
  unfold datedHead in Hd.
  destruct (Offer.PromotionalOffers o) as [| q ?]; [exact IH' |].
  rewrite Hd. exact IH'.
Qed.

Lemma needsFallback_true (game : Game.t) :
  Game.Status game = "free" ->
  (Game.StartDate game = "" /\ Game.EndDate game = "")
  \/ Game.DatePrecision game = "estimated" ->
  needsFallback game = true.
Proof.
  intros Hs Hd. unfold needsFallback. rewrite Hs.
  destruct Hd as [[-> ->] | ->]; [reflexivity |].
  change ("estimated" =? "estimated")%string with true.
  rewrite orb_true_r. reflexivity.
Qed.

End Fallback.

(** C4: when the record reaches the rescan with status "free" and either
    no dates or precision "estimated", the first offer of the current
    promotions whose first sub-offer has both dates gives the record its
    dates, as [formatDate] prints them, and precision "exact", whatever its
    discount and whatever offers come after it; that record is the one
    emitted. *)
Theorem fallback_first_dated_offer (zoneinfo : string -> option time.Location)
    (includeUpcoming : bool) (timezone : string) (clock : Z) (element : Element.t)
    (game : Game.t) (before after : list Offer.t) (offer : Offer.t)
    (promo : Promo.t) (others : list Promo.t) :
  classify zoneinfo includeUpcoming timezone clock element = Some game ->
  Game.Status game = "free" ->
  (Game.StartDate game = "" /\ Game.EndDate game = "")
  \/ Game.DatePrecision game = "estimated" ->
  Element.PromotionalOffers element = (before ++ offer :: after)%list ->
  (forall o, In o before -> datedHead o = false) ->
  Offer.PromotionalOffers offer = promo :: others ->
  Promo.StartDate promo <> "" ->
  Promo.EndDate promo <> "" ->
  fallbackStage zoneinfo timezone element game
  = withPromo zoneinfo timezone "free" promo game
  /\ convertElement zoneinfo includeUpcoming timezone clock element
     = Some (withPromo zoneinfo timezone "free" promo game).
Proof.
  intros Hc Hs Hd Ho Hb Hp Hstart Hend.
  assert (E : fallbackStage zoneinfo timezone element game
              = withPromo zoneinfo timezone "free" promo game).
  { unfold fallbackStage.
    rewrite (needsFallback_true game Hs Hd), Ho.
    rewrite (fallbackDates_first zoneinfo timezone before after offer promo others game
               Hb Hp Hstart Hend).
    rewrite Hs. reflexivity. }
  split; [exact E |].
  unfold convertElement. rewrite Hc, E.
  rewrite unknownGuard_withPromo by (left; exact Hstart). reflexivity.
Qed.

(** ** Precision "unknown" *)

Section Precision.

Variable zoneinfo : string -> option time.Location.
Variable timezone : string.

Lemma classify_knownPrecision (includeUpcoming : bool) (clock : Z)
    (element : Element.t) (game : Game.t) :
  classify zoneinfo includeUpcoming timezone clock element = Some game ->
  knownPrecision game.
Proof.
  intro H.
  destruct (classify_cases zoneinfo timezone clock element includeUpcoming game H)
    as [[status [promo ->]] | ->]; [left | right]; reflexivity.
Qed.

Lemma fallbackDates_knownPrecision (offers : list Offer.t) (game : Game.t) :
  knownPrecision game -> knownPrecision (fallbackDates zoneinfo timezone offers game).
Proof.
  intro H. induction offers as [| offer rest IH]; simpl; [exact H |].
  destruct (Offer.PromotionalOffers offer) as [| promo ?]; [exact IH |].
  destruct (negb (Promo.StartDate promo =? "")%string
            && negb (Promo.EndDate promo =? "")%string); [left; reflexivity | exact IH].
Qed.

Lemma fallbackStage_knownPrecision (element : Element.t) (game : Game.t) :
  knownPrecision game -> knownPrecision (fallbackStage zoneinfo timezone element game).
Proof.
  intro H. unfold fallbackStage.
  destruct (needsFallback game); [apply fallbackDates_knownPrecision, H | exact H].
Qed.

End Precision.

(** C6: the record emitted for an entry has precision "unknown" exactly
    when both of its dates are empty after the rescan stage, and then both
    dates are "Unknown"; otherwise the last guard leaves the record as the
    rescan stage left it. *)
Theorem unknown_iff_no_dates (zoneinfo : string -> option time.Location)
    (includeUpcoming : bool) (timezone : string) (clock : Z)
    (element : Element.t) (game : Game.t) :
  classify zoneinfo includeUpcoming timezone clock element = Some game ->
  let staged := fallbackStage zoneinfo timezone element game in
  let emitted := unknownGuard staged in
  convertElement zoneinfo includeUpcoming timezone clock element = Some emitted
  /\ (Game.DatePrecision emitted = "unknown"
      <-> Game.StartDate staged = "" /\ Game.EndDate staged = "")
  /\ (Game.StartDate staged = "" /\ Game.EndDate staged = "" ->
      Game.StartDate emitted = "Unknown" /\ Game.EndDate emitted = "Unknown")
  /\ (~ (Game.StartDate staged = "" /\ Game.EndDate staged = "") ->
      emitted = staged).
Proof.
  intros Hc staged emitted.
  assert (Hk : knownPrecision staged).
  { apply fallbackStage_knownPrecision.
    apply (classify_knownPrecision zoneinfo timezone includeUpcoming clock element), Hc. }
  split; [unfold convertElement; rewrite Hc; reflexivity |].
  subst emitted. unfold unknownGuard.
  destruct (String.eqb_spec (Game.StartDate staged) "") as [Es | Es];
    destruct (String.eqb_spec (Game.EndDate staged) "") as [Ee | Ee]; cbn [andb].
  - split; [split; [intros _; split; assumption | intros _; reflexivity] |].
    split; [intros _; split; reflexivity |].
    intro H. exfalso. apply H. split; assumption.
  - split; [split; [intro H | intros [_ H]; contradiction] |].
    + exfalso. destruct Hk as [Hk | Hk]; rewrite Hk in H; discriminate H.
    + split; [intros [_ H]; contradiction | intros _; reflexivity].
  - split; [split; [intro H | intros [H _]; contradiction] |].
    + exfalso. destruct Hk as [Hk | Hk]; rewrite Hk in H; discriminate H.
    + split; [intros [H _]; contradiction | intros _; reflexivity].
  - split; [split; [intro H | intros [H _]; contradiction] |].
    + exfalso. destruct Hk as [Hk | Hk]; rewrite Hk in H; discriminate H.
    + split; [intros [H _]; contradiction | intros _; reflexivity].
Qed.

(** ** The store URL *)

Lemma firstSlug_find (mappings : list Mapping.t) (pageSlug : string) :
  firstSlug mappings pageSlug
  = match firstNonEmptySlug mappings with
    | Some slug => slug
    | None => pageSlug
    end.
Proof.
  unfold firstNonEmptySlug.
  induction mappings as [| mapping rest IH]; simpl; [reflexivity |].
  unfold nonEmptySlug at 1.
  destruct (negb (Mapping.PageSlug mapping =? "")%string); [reflexivity | exact IH].
Qed.

Lemma firstNonEmptySlug_nonempty (mappings : list Mapping.t) (slug : string) :
  firstNonEmptySlug mappings = Some slug -> slug <> "".
Proof.
  unfold firstNonEmptySlug.
  destruct (find nonEmptySlug mappings) as [mapping |] eqn:E; [| discriminate].
  intro H. injection H as <-.
  apply find_some in E. destruct E as [_ E]. unfold nonEmptySlug in E.
  intro H. rewrite H in E. discriminate E.
Qed.

Lemma resolveSlug_canonical (element : Element.t) :
  resolveSlug element = canonicalSlug element.
Proof.
  unfold resolveSlug, canonicalSlug. rewrite !firstSlug_find.
  destruct (firstNonEmptySlug (Element.OfferMappings element)) as [slug |] eqn:E.
  - rewrite (string_eqb_false _ _ (firstNonEmptySlug_nonempty _ _ E)). reflexivity.
  - reflexivity.
Qed.

Section StoreURL.

Variable zoneinfo : string -> option time.Location.
Variable timezone : string.

Lemma fallbackDates_URL (offers : list Offer.t) (game : Game.t) :
  Game.URL (fallbackDates zoneinfo timezone offers game) = Game.URL game.
Proof.
  induction offers as [| offer rest IH]; simpl; [reflexivity |].
  destruct (Offer.PromotionalOffers offer) as [| promo ?]; [exact IH |].
  destruct (negb (Promo.StartDate promo =? "")%string
            && negb (Promo.EndDate promo =? "")%string); [reflexivity | exact IH].
Qed.

Lemma stages_URL (element : Element.t) (game : Game.t) :
  Game.URL (unknownGuard (fallbackStage zoneinfo timezone element game)) = Game.URL game.
Proof.
  unfold unknownGuard, fallbackStage.
  destruct (needsFallback game).
  - rewrite <- (fallbackDates_URL (Element.PromotionalOffers element) game).
    destruct ((Game.StartDate _ =? "")%string && (Game.EndDate _ =? "")%string); reflexivity.
  - destruct ((Game.StartDate game =? "")%string && (Game.EndDate game =? "")%string);
      reflexivity.
Qed.

End StoreURL.

(** C8: the URL of an emitted record is the base path followed by the
    first non-empty page slug of the offer mappings, else by the first
    non-empty page slug of the catalog mappings, else by nothing.  With no
    offer mapping and the catalog mapping "foo" it ends in "/foo"; with no
    mapping at all it ends in "/p/". *)
Theorem url_from_first_slug (zoneinfo : string -> option time.Location)
    (includeUpcoming : bool) (timezone : string) (clock : Z)
    (element : Element.t) (game : Game.t) :
  convertElement zoneinfo includeUpcoming timezone clock element = Some game ->
  Game.URL game = "https://store.epicgames.com/en-US/p/" ++ canonicalSlug element
  /\ (Element.OfferMappings element = [] ->
      Element.CatalogNsMappings element = [Mapping.mk "foo"] ->
      Game.URL game = "https://store.epicgames.com/en-US/p/foo")
  /\ (Element.OfferMappings element = [] ->
      Element.CatalogNsMappings element = [] ->
      Game.URL game = "https://store.epicgames.com/en-US/p/").
Proof.
  intro H. unfold convertElement in H.
  destruct (classify zoneinfo includeUpcoming timezone clock element) as [staged |] eqn:Hc;
    [| discriminate H].
  injection H as <-.
  assert (E : Game.URL (unknownGuard (fallbackStage zoneinfo timezone element staged))
              = "https://store.epicgames.com/en-US/p/" ++ canonicalSlug element).
  { rewrite stages_URL, <- resolveSlug_canonical.
    destruct (classify_cases zoneinfo timezone clock element includeUpcoming staged Hc)
      as [[status [promo ->]] | ->]; reflexivity. }
  split; [exact E |].
  split; intros Ho Hm; rewrite E; unfold canonicalSlug; rewrite Ho, Hm; reflexivity.
Qed.

(** ** The Discord message *)

Lemma appendEmbeds_cards (timestamp : nat -> string) (games : list Game.t) :
  forall (i : nat) (embeds : list DiscordEmbed.t),
    appendEmbeds timestamp i games embeds
    = (embeds ++ cardsFrom timestamp i (firstn (10 - i) games))%list.
Proof.
  induction games as [| game rest IH]; intros i embeds; cbn [appendEmbeds].
  - rewrite firstn_nil. simpl. rewrite app_nil_r. reflexivity.
  - destruct (Nat.leb_spec 10 i) as [Hi | Hi].
    + replace (10 - i)%nat with 0%nat by lia. simpl. rewrite app_nil_r. reflexivity.
    + rewrite IH. replace (10 - i)%nat with (S (10 - S i)) by lia.
      cbn [firstn cardsFrom]. rewrite <- app_assoc. reflexivity.
Qed.

Lemma cardsFrom_length (timestamp : nat -> string) (games : list Game.t) (i : nat) :
  List.length (cardsFrom timestamp i games) = List.length games.
Proof.
  revert i. induction games as [| game rest IH]; intro i; simpl; [reflexivity |].
  rewrite IH. reflexivity.
Qed.

(** C9: for an empty list of records nothing is posted; otherwise one
    message is posted, whose cards are those of the first ten records at
    most, in order: [min (length games) 10] of them. *)
Theorem notification_first_ten (timestamp : nat -> string)
    (respond : DiscordWebhookMessage.t -> string + Z) (games : list Game.t) :
  fst (SendDiscordNotification timestamp respond games)
  = match games with
    | [] => []
    | _ :: _ =>
      [DiscordWebhookMessage.mk "🎮 Free Games from Epic Games Store 🎮"
                                (cardsFrom timestamp 0 (firstn 10 games))]
    end
  /\ List.length (cardsFrom timestamp 0 (firstn 10 games)) = Nat.min (List.length games) 10.
Proof.
  split.
  - unfold SendDiscordNotification.
    destruct games as [| game rest]; [reflexivity |].
    cbn [List.length Nat.eqb DiscordWebhookMessage.Content DiscordWebhookMessage.Embeds].
    rewrite appendEmbeds_cards. cbn [app Nat.sub].
    destruct (respond _) as [err | status]; [reflexivity |].
    destruct ((status <? 200) || (300 <=? status)); reflexivity.
  - rewrite cardsFrom_length, length_firstn. lia.
Qed.

(** ** A record with one date *)

(** C10: whatever the parameters, the entry whose only sub-offer at 100%
    has an end date and no start date is emitted with an empty start date,
    a printed end date and precision "exact": [formatDate] returns the empty
    string as it is, and neither the rescan nor the last guard changes the
    record. *)
Theorem one_empty_date_emitted (zoneinfo : string -> option time.Location)
    (includeUpcoming : bool) (timezone : string) (clock : Z) :
  exists (element : Element.t) (game : Game.t),
    classify zoneinfo includeUpcoming timezone clock element = Some game
    /\ formatDate zoneinfo timezone "" = ""
    /\ fallbackStage zoneinfo timezone element game = game
    /\ unknownGuard game = game
    /\ convertElement zoneinfo includeUpcoming timezone clock element = Some game
    /\ Game.Status game = "free"
    /\ Game.StartDate game = ""
    /\ Game.EndDate game <> ""
    /\ Game.DatePrecision game = "exact".
Proof.
  set (promo := Promo.mk "" "2025-04-11T15:00:00.000Z" 100).
  assert (Hd : Promo.StartDate promo <> "" \/ Promo.EndDate promo <> "")
    by (right; discriminate).
  assert (Hc : classify zoneinfo includeUpcoming timezone clock halfDatedElement
               = Some (withPromo zoneinfo timezone "free" promo (initialGame halfDatedElement))).
  { apply (classify_current zoneinfo timezone clock halfDatedElement includeUpcoming []).
    reflexivity. }
  exists halfDatedElement.
  exists (withPromo zoneinfo timezone "free" promo (initialGame halfDatedElement)).
  split; [exact Hc |].
  split; [reflexivity |].
  split; [apply fallbackStage_withPromo, Hd |].
  split; [apply unknownGuard_withPromo, Hd |].
  split; [unfold convertElement; rewrite Hc, exact_dates_kept by exact Hd; reflexivity |].
  split; [reflexivity |].
  split; [reflexivity |].
  split; [| reflexivity].
  apply formatDate_nonempty. discriminate.
Qed.

(** ** The price branch *)

Lemma isFreePrice_true (price : string) :
  price = "$0.00" \/ price = "0" \/ price = ""
  \/ strings.Contains (strings.ToLower price) "free" = true ->
  isFreePrice price = true.
Proof.
  unfold isFreePrice. intros [-> | [-> | [-> | ->]]]; try reflexivity.
  apply orb_true_r.
Qed.

Lemma estimate_location_loaded (zoneinfo : string -> option time.Location)
    (timezone : string) (location : time.Location) :
  LoadLocation zoneinfo timezone = Some location ->
  estimate_location zoneinfo timezone = formatDate_location zoneinfo timezone.
Proof.
  intro H. unfold estimate_location, formatDate_location. rewrite H. reflexivity.
Qed.

(** C3, amended: an entry with no sub-offer at 100% that counts, a
    discount price among "$0.00", "0", "" or containing "free" in any letter
    case, and no current offer whose first sub-offer has both dates, is
    emitted with status "free" and precision "estimated", its start date the
    clock printed in the time zone's location and its end date that time
    moved seven calendar days on, which in a location of constant offset is
    604800 seconds later.  This for a time zone on which the location of
    the price branch is the one [formatDate] prints in. *)
Theorem zero_price_estimated_week (zoneinfo : string -> option time.Location)
    (includeUpcoming : bool) (timezone : string) (clock : Z) (element : Element.t) :
  freePromos (Element.PromotionalOffers element) = [] ->
  includeUpcoming = false \/ freePromos (Element.UpcomingPromotionalOffers element) = [] ->
  Element.DiscountPrice element = "$0.00" \/ Element.DiscountPrice element = "0"
  \/ Element.DiscountPrice element = ""
  \/ strings.Contains (strings.ToLower (Element.DiscountPrice element)) "free" = true ->
  (forall o, In o (Element.PromotionalOffers element) -> datedHead o = false) ->
  estimate_location zoneinfo timezone = formatDate_location zoneinfo timezone ->
  emitsEstimatedWeek zoneinfo includeUpcoming timezone clock element
  /\ forall offset,
       constantOffset (formatDate_location zoneinfo timezone) offset ->
       time.AddDate (time.mkTime clock (formatDate_location zoneinfo timezone)) 0 0 7
       = time.mkTime (clock + 604800) (formatDate_location zoneinfo timezone).
Proof.
  intros Hc Hu Hp Hd Hl. split.
  - unfold emitsEstimatedWeek, convertElement.
    rewrite (classify_price zoneinfo timezone clock element includeUpcoming Hc Hu).
    rewrite (isFreePrice_true _ Hp).
    set (game := estimateDates zoneinfo timezone clock (initialGame element)).
    assert (Hf : fallbackStage zoneinfo timezone element game = game).
    { unfold fallbackStage. rewrite needsFallback_true; [| reflexivity | right; reflexivity].
      apply fallbackDates_none, Hd. }
    assert (Hg : unknownGuard game = game).
    { unfold unknownGuard.
      rewrite (string_eqb_false (Game.StartDate game) ""); [reflexivity |].
      apply Format_nonempty. }
    rewrite Hf, Hg. exists game.
    split; [reflexivity |]. split; [reflexivity |]. split; [reflexivity |].
    subst game. unfold estimateDates, time.In.
    cbn [time.unixSec Game.StartDate Game.EndDate Game.set_StartDate Game.set_EndDate
         Game.set_DatePrecision Game.set_Status].
    rewrite Hl. split; reflexivity.
  - intros offset Ho.
    apply (AddDate_days_constant clock _ offset 7 Ho).
Qed.

(** A free-to-play entry with a dated discount running on it comes out
    with the discount's dates and precision "exact": C3 as written fails
    there. *)
Lemma zero_priced_discounted_exact :
  freePromos (Element.PromotionalOffers zeroPricedDiscountedElement) = []
  /\ freePromos (Element.UpcomingPromotionalOffers zeroPricedDiscountedElement) = []
  /\ Element.DiscountPrice zeroPricedDiscountedElement = "$0.00"
  /\ ~ emitsEstimatedWeek noZoneinfo true "UTC" 1743778800 zeroPricedDiscountedElement.
Proof.
  split; [reflexivity |]. split; [reflexivity |]. split; [reflexivity |].
  intros [game [Hc [_ [Hp _]]]].
  vm_compute in Hc. injection Hc as <-. discriminate Hp.
Qed.

(** ** The location of [formatDate] *)

Section TimeZone.

Variable zoneinfo : string -> option time.Location.

(** A name the library or the database knows is taken as it is. *)
Lemma formatDate_location_loaded (timezone : string) (location : time.Location) :
  LoadLocation zoneinfo timezone = Some location ->
  formatDate_location zoneinfo timezone = location.
Proof. intro H. unfold formatDate_location. rewrite H. reflexivity. Qed.

Lemma LoadLocation_zoneinfo (timezone : string) :
  timezone <> "" -> timezone <> "UTC" ->
  LoadLocation zoneinfo timezone = zoneinfo timezone.
Proof.
  intros H1 H2. unfold LoadLocation.
  rewrite (string_eqb_false _ _ H1), (string_eqb_false _ _ H2). reflexivity.
Qed.

(** A name that does not load and starts with neither "UTC" nor "GMT"
    gives the fallback, eight hours east. *)
Lemma formatDate_location_other (timezone : string) :
  LoadLocation zoneinfo timezone = None ->
  strings.HasPrefix timezone "UTC" = false ->
  strings.HasPrefix timezone "GMT" = false ->
  formatDate_location zoneinfo timezone = time.FixedZone "UTC+8" 28800.
Proof.
  intros H Hu Hg. unfold formatDate_location. rewrite H, Hu, Hg. reflexivity.
Qed.

(** After "UTC" or "GMT", the outcome of the scan decides. *)
Lemma formatDate_location_offset (timezone : string) :
  LoadLocation zoneinfo timezone = None ->
  strings.HasPrefix timezone "UTC" || strings.HasPrefix timezone "GMT" = true ->
  let offsetStr := strings.TrimPrefix (strings.TrimPrefix timezone "UTC") "GMT" in
  offsetStr <> "" ->
  formatDate_location zoneinfo timezone
  = match fmt.Sscanf_d offsetStr with
    | Some offsetHours =>
      time.FixedZone timezone (wrap64 (wrap64 (offsetHours * 60) * 60))
    | None => time.FixedZone "UTC+8" 28800
    end.
Proof.
  intros H Hp offsetStr Hne. unfold formatDate_location. rewrite H, Hp.
  fold offsetStr. rewrite (string_eqb_false _ _ Hne). reflexivity.
Qed.

Lemma wrap64_hours (offsetHours : Z) :
  - 2 ^ 63 <= offsetHours * 3600 < 2 ^ 63 ->
  wrap64 (wrap64 (offsetHours * 60) * 60) = offsetHours * 3600.
Proof.
  intro H. unfold wrap64.
  assert (E : (offsetHours * 60 + 2 ^ 63) mod 2 ^ 64 = offsetHours * 60 + 2 ^ 63)
    by (apply Z.mod_small; lia).
  rewrite E.
  replace (offsetHours * 60 + 2 ^ 63 - 2 ^ 63) with (offsetHours * 60) by lia.
  rewrite Z.mod_small by lia. lia.
Qed.

Lemma formatDate_location_UTC_plus_3 :
  zoneinfo "UTC+3" = None ->
  formatDate_location zoneinfo "UTC+3" = time.FixedZone "UTC+3" 10800.
Proof.
  intro H. unfold formatDate_location, LoadLocation.
  cbn [String.eqb Ascii.eqb Bool.eqb orb andb]. rewrite H. reflexivity.
Qed.

Lemma formatDate_location_Mars_Phobos :
  zoneinfo "Mars/Phobos" = None ->
  formatDate_location zoneinfo "Mars/Phobos" = time.FixedZone "UTC+8" 28800.
Proof.
  intro H. unfold formatDate_location, LoadLocation.
  cbn [String.eqb Ascii.eqb Bool.eqb orb andb]. rewrite H. reflexivity.
Qed.

End TimeZone.

(** C7, at "UTC+5:30": what follows "UTC" is no signed integer, yet when
    the name does not load the location is not the fallback: it is the zone
    five hours east, under the name "UTC+5:30", because the scan stops at
    the colon without an error. *)
Theorem offset_with_minutes_not_fallback (zoneinfo : string -> option time.Location) :
  zoneinfo "UTC+5:30" = None ->
  strings.TrimPrefix (strings.TrimPrefix "UTC+5:30" "UTC") "GMT" = "+5:30"
  /\ wholeSignedInteger "+5:30" = None
  /\ fmt.Sscanf_d "+5:30" = Some 5
  /\ formatDate_location zoneinfo "UTC+5:30" = time.FixedZone "UTC+5:30" 18000
  /\ formatDate zoneinfo "UTC+5:30" "2025-04-04T15:00:00.000Z"
     = "2025-04-04 20:00:00 UTC+5:30".
Proof.
  intro H.
  assert (E : formatDate_location zoneinfo "UTC+5:30" = time.FixedZone "UTC+5:30" 18000).
  { unfold formatDate_location, LoadLocation.
    cbn [String.eqb Ascii.eqb Bool.eqb orb andb]. rewrite H. reflexivity. }
  repeat split; try reflexivity; try exact E.
  unfold formatDate.
  change (time.Parse_RFC3339 "2025-04-04T15:00:00.000Z")
    with (Some (time.mkTime 1743778800 (time.FixedZone "" 0))).
  cbv iota. rewrite E. reflexivity.
Qed.

(** * The properties at sample entries *)

Example thumbnail_second :
  thumbnail [KeyImage.mk "Other" "a"; KeyImage.mk "Thumbnail" "b"] "" = "b".
Proof. reflexivity. Qed.

Example thumbnail_absent :
  thumbnail [KeyImage.mk "Other" "a"; KeyImage.mk "Logo" "b"] "" = "".
Proof. reflexivity. Qed.

Example isFreePrice_samples :
  map isFreePrice ["$0.00"; "0"; ""; "Free"; "FREE to play"; "$19.99"; "0.00"; "fre e"]
  = [true; true; true; true; true; false; false; false].
Proof. reflexivity. Qed.

Example convert_catQuest :
  convertElement noZoneinfo true "Asia/Manila" 0 catQuestElement
  = Some (Game.mk "Cat Quest II" "Open-world action-RPG"
                  "https://cdn1.epicgames.com/thumb.jpg"
                  "https://store.epicgames.com/en-US/p/cat-quest-ii"
                  "free" "2025-04-04 23:00:00 UTC+8" "2025-04-11 23:00:00 UTC+8"
                  "exact" "Kepler Interactive").
Proof. vm_compute. reflexivity. Qed.

Example convert_zeroPriced :
  fetchFreeGames noZoneinfo true "UTC" (fun _ => 1743778800) (inr [zeroPricedElement])
  = inl [Game.mk "Free to play" ""
                 "" "https://store.epicgames.com/en-US/p/"
                 "free" "2025-04-04 15:00:00 UTC" "2025-04-11 15:00:00 UTC"
                 "estimated" "Studio"].
Proof. vm_compute. reflexivity. Qed.

Example convert_zeroPriced_offset_name :
  option_map Game.StartDate
    (convertElement noZoneinfo true "UTC+3" 1743778800 zeroPricedElement)
  = Some "2025-04-04 23:00:00 UTC+8"
  /\ formatDate noZoneinfo "UTC+3" "2025-04-04T15:00:00.000Z"
     = "2025-04-04 18:00:00 UTC+3".
Proof. split; vm_compute; reflexivity. Qed.

Lemma current_free_promo_exact_witness :
  freePromos (Element.PromotionalOffers catQuestElement) = ([earlierPromo] ++ [laterPromo])%list
  /\ (Promo.StartDate laterPromo <> "" \/ Promo.EndDate laterPromo <> "")
  /\ emitsLastFreePromo noZoneinfo true "UTC+8" 0 catQuestElement laterPromo.
Proof.
  split; [reflexivity |]. split; [left; discriminate |].
  apply (current_free_promo_exact noZoneinfo true "UTC+8" 0 catQuestElement
           [earlierPromo] laterPromo); [reflexivity | left; discriminate].
Defined.

Lemma upcoming_only_outcome_witness :
  freePromos (Element.PromotionalOffers announcedElement) = []
  /\ freePromos (Element.UpcomingPromotionalOffers announcedElement) <> []
  /\ (exists game,
         convertElement noZoneinfo true "UTC" 0 announcedElement = Some game
         /\ Game.Status game = "coming soon")
  /\ (isFreePrice (Element.DiscountPrice announcedElement) = false ->
      convertElement noZoneinfo false "UTC" 0 announcedElement = None)
  /\ (isFreePrice (Element.DiscountPrice announcedElement) = true ->
      exists game,
        convertElement noZoneinfo false "UTC" 0 announcedElement = Some game
        /\ Game.Status game = "free").
Proof.
  split; [reflexivity |]. split; [discriminate |].
  apply (upcoming_only_outcome noZoneinfo "UTC" 0 announcedElement);
    [reflexivity | discriminate].
Defined.

Lemma zero_price_estimated_week_witness :
  freePromos (Element.PromotionalOffers zeroPricedElement) = []
  /\ Element.DiscountPrice zeroPricedElement = "$0.00"
  /\ estimate_location noZoneinfo "UTC" = formatDate_location noZoneinfo "UTC"
  /\ emitsEstimatedWeek noZoneinfo true "UTC" 1743778800 zeroPricedElement
  /\ forall offset,
       constantOffset (formatDate_location noZoneinfo "UTC") offset ->
       time.AddDate (time.mkTime 1743778800 (formatDate_location noZoneinfo "UTC")) 0 0 7
       = time.mkTime (1743778800 + 604800) (formatDate_location noZoneinfo "UTC").
Proof.
  split; [reflexivity |]. split; [reflexivity |]. split; [reflexivity |].
  apply (zero_price_estimated_week noZoneinfo true "UTC" 1743778800 zeroPricedElement).
  - reflexivity.
  - right. reflexivity.
  - left. reflexivity.
  - intros o [].
  - reflexivity.
Defined.

Lemma fallback_first_dated_offer_witness :
  let game := estimateDates noZoneinfo "UTC" 1743778800
                (initialGame zeroPricedDiscountedElement) in
  let promo := Promo.mk "2025-04-04T15:00:00.000Z" "2025-04-11T15:00:00.000Z" 50 in
  classify noZoneinfo true "UTC" 1743778800 zeroPricedDiscountedElement = Some game
  /\ Game.Status game = "free"
  /\ Game.DatePrecision game = "estimated"
  /\ fallbackStage noZoneinfo "UTC" zeroPricedDiscountedElement game
     = withPromo noZoneinfo "UTC" "free" promo game
  /\ convertElement noZoneinfo true "UTC" 1743778800 zeroPricedDiscountedElement
     = Some (withPromo noZoneinfo "UTC" "free" promo game).
Proof.
  intros game promo.
  split; [reflexivity |]. split; [reflexivity |]. split; [reflexivity |].
  apply (fallback_first_dated_offer noZoneinfo true "UTC" 1743778800
           zeroPricedDiscountedElement game
           [Offer.mk []; Offer.mk [Promo.mk "" "2025-04-11T15:00:00.000Z" 75]]
           [Offer.mk [Promo.mk "2025-06-01T15:00:00.000Z" "2025-06-08T15:00:00.000Z" 10]]
           (Offer.mk [promo; Promo.mk "2025-05-01T15:00:00.000Z" "2025-05-08T15:00:00.000Z" 25])
           promo
           [Promo.mk "2025-05-01T15:00:00.000Z" "2025-05-08T15:00:00.000Z" 25]).
  - reflexivity.
  - reflexivity.
  - right. reflexivity.
  - reflexivity.
  - intros o [<- | [<- | []]]; reflexivity.
  - reflexivity.
  - discriminate.
  - discriminate.
Defined.

Lemma paid_entry_not_emitted_witness :
  convertElement noZoneinfo true "UTC" 1743778800 paidElement = None
  /\ fetchFreeGames noZoneinfo true "UTC" (fun _ => 1743778800)
       (inr ([catQuestElement] ++ paidElement :: [zeroPricedElement])%list)
     = inl (convertFrom noZoneinfo true "UTC" (fun _ => 1743778800) 0 [catQuestElement]
            ++ convertFrom noZoneinfo true "UTC" (fun _ => 1743778800) 2 [zeroPricedElement])%list.
Proof.
  apply (paid_entry_not_emitted noZoneinfo true "UTC" (fun _ => 1743778800)
           [catQuestElement] [zeroPricedElement] paidElement);
    try reflexivity; discriminate.
Defined.

Lemma unknown_iff_no_dates_witness :
  let game := withPromo noZoneinfo "UTC" "free" (Promo.mk "" "" 100)
                (initialGame undatedFreeElement) in
  classify noZoneinfo true "UTC" 0 undatedFreeElement = Some game
  /\ convertElement noZoneinfo true "UTC" 0 undatedFreeElement
     = Some (unknownGuard (fallbackStage noZoneinfo "UTC" undatedFreeElement game))
  /\ Game.DatePrecision
       (unknownGuard (fallbackStage noZoneinfo "UTC" undatedFreeElement game)) = "unknown"
  /\ Game.StartDate
       (unknownGuard (fallbackStage noZoneinfo "UTC" undatedFreeElement game)) = "Unknown".
Proof.
  intro game.
  assert (Hc : classify noZoneinfo true "UTC" 0 undatedFreeElement = Some game)
    by reflexivity.
  destruct (unknown_iff_no_dates noZoneinfo true "UTC" 0 undatedFreeElement game Hc)
    as [He [Hiff [Hu _]]].
  split; [exact Hc |]. split; [exact He |].
  split; [apply Hiff; split; reflexivity | apply Hu; split; reflexivity].
Defined.

Lemma offset_with_minutes_not_fallback_witness :
  noZoneinfo "UTC+5:30" = None
  /\ formatDate_location noZoneinfo "UTC+5:30" = time.FixedZone "UTC+5:30" 18000
  /\ formatDate noZoneinfo "UTC+5:30" "2025-04-04T15:00:00.000Z"
     = "2025-04-04 20:00:00 UTC+5:30".
Proof.
  split; [reflexivity |].
  destruct (offset_with_minutes_not_fallback noZoneinfo eq_refl) as [_ [_ [_ [Hl Hf]]]].
  split; [exact Hl | exact Hf].
Defined.

Lemma url_from_first_slug_witness :
  exists game,
    convertElement noZoneinfo true "UTC" 0 announcedElement = Some game
    /\ Game.URL game = "https://store.epicgames.com/en-US/p/foo".
Proof.
  eexists. split; [reflexivity |].
  refine (proj1 (proj2 (url_from_first_slug noZoneinfo true "UTC" 0 announcedElement _ eq_refl))
            eq_refl eq_refl).
Defined.

Example Sscanf_d_samples :
  map fmt.Sscanf_d ["+3"; "-11"; "8"; " 7"; "+5:30"; "3abc"; "+x"; ":30"; "+"; "9223372036854775808"]
  = [Some 3; Some (-11); Some 8; Some 7; Some 5; Some 3; None; None; None; None].
Proof. reflexivity. Qed.

Example wholeSignedInteger_samples :
  map wholeSignedInteger ["+3"; "-11"; "8"; "+5:30"; "3abc"; "+x"; ""]
  = [Some 3; Some (-11); Some 8; None; None; None; None].
Proof. reflexivity. Qed.


(** * Further properties of the code *)

(** ** What every emitted record satisfies *)

Section Outcome.

Variable zoneinfo : string -> option time.Location.
Variable timezone : string.

(** The three ways through the loop body, with what each requires of
    the entry. *)
Lemma classify_outcome (includeUpcoming : bool) (clock : Z) (element : Element.t)
    (game : Game.t) :
  classify zoneinfo includeUpcoming timezone clock element = Some game ->
  (exists pre promo,
      freePromos (Element.PromotionalOffers element) = (pre ++ [promo])%list
      /\ game = withPromo zoneinfo timezone "free" promo (initialGame element))
  \/ (includeUpcoming = true
      /\ freePromos (Element.PromotionalOffers element) = []
      /\ exists pre promo,
           freePromos (Element.UpcomingPromotionalOffers element) = (pre ++ [promo])%list
           /\ game = withPromo zoneinfo timezone "coming soon" promo (initialGame element))
  \/ (freePromos (Element.PromotionalOffers element) = []
      /\ (includeUpcoming = false
          \/ freePromos (Element.UpcomingPromotionalOffers element) = [])
      /\ isFreePrice (Element.DiscountPrice element) = true
      /\ game = estimateDates zoneinfo timezone clock (initialGame element)).
Proof.
  intro H.
  destruct (freePromos (Element.PromotionalOffers element)) as [| x l] eqn:Hc.
  - assert (Hprice : forall b,
               b = false \/ freePromos (Element.UpcomingPromotionalOffers element) = [] ->
               classify zoneinfo b timezone clock element = Some game ->
               isFreePrice (Element.DiscountPrice element) = true
               /\ game = estimateDates zoneinfo timezone clock (initialGame element)).
    { intros b Hb Hg. rewrite (classify_price zoneinfo timezone clock element b Hc Hb) in Hg.
      destruct (isFreePrice (Element.DiscountPrice element)); [| discriminate Hg].
      injection Hg as <-. split; reflexivity. }
    destruct includeUpcoming.
    + destruct (freePromos (Element.UpcomingPromotionalOffers element)) as [| y k] eqn:Hu.
      * right. right. destruct (Hprice true (or_intror eq_refl) H) as [Hp Hg].
        repeat split; auto.
      * assert (Hne : y :: k <> []) by discriminate.
        destruct (exists_last Hne) as [pre [promo Hlast]].
        rewrite Hlast in Hu.
        rewrite (classify_upcoming zoneinfo timezone clock element pre promo Hc Hu) in H.
        injection H as <-. right. left.
        split; [reflexivity |]. split; [reflexivity |].
        exists pre, promo. rewrite Hlast. split; reflexivity.
    + right. right. destruct (Hprice false (or_introl eq_refl) H) as [Hp Hg].
      repeat split; auto.
  - assert (Hne : x :: l <> []) by discriminate.
    destruct (exists_last Hne) as [pre [promo Hlast]].
    rewrite Hlast in Hc.
    rewrite (classify_current zoneinfo timezone clock element includeUpcoming pre promo Hc) in H.
    injection H as <-. left. exists pre, promo. rewrite Hlast. split; reflexivity.
Qed.

(** The rescan either finds no dated offer and leaves the record, or
    makes it "exact"; it touches the dates and the precision only. *)
Lemma fallbackDates_shape (offers : list Offer.t) (game : Game.t) :
  exists startDate endDate precision,
    fallbackDates zoneinfo timezone offers game
    = Game.mk (Game.Title game) (Game.Description game) (Game.ImageURL game)
              (Game.URL game) (Game.Status game) startDate endDate precision
              (Game.Publisher game)
    /\ ((forall o, In o offers -> datedHead o = false)
        /\ startDate = Game.StartDate game /\ endDate = Game.EndDate game
        /\ precision = Game.DatePrecision game
        \/ precision = "exact" /\ startDate <> "" /\ endDate <> "").
Proof.
  induction offers as [| offer rest IH]; cbn [fallbackDates].
  - exists (Game.StartDate game), (Game.EndDate game), (Game.DatePrecision game).
    split; [destruct game; reflexivity |].
    left. split; [intros o [] | repeat split].
  - destruct IH as [sd [ed [pr [E Hcase]]]].
    assert (Hskip : datedHead offer = false ->
              exists startDate endDate precision,
                fallbackDates zoneinfo timezone rest game
                = Game.mk (Game.Title game) (Game.Description game) (Game.ImageURL game)
                          (Game.URL game) (Game.Status game) startDate endDate precision
                          (Game.Publisher game)
                /\ ((forall o, In o (offer :: rest) -> datedHead o = false)
                    /\ startDate = Game.StartDate game /\ endDate = Game.EndDate game
                    /\ precision = Game.DatePrecision game
                    \/ precision = "exact" /\ startDate <> "" /\ endDate <> "")).
    { intro Hd. exists sd, ed, pr. split; [exact E |].
      destruct Hcase as [[Hall Heq] | Hex]; [left | right; exact Hex].
      split; [| exact Heq]. intros o [<- | Hin]; [exact Hd | apply Hall, Hin]. }
    unfold datedHead in Hskip.
    destruct (Offer.PromotionalOffers offer) as [| promo others]; [apply Hskip; reflexivity |].
    destruct (negb (Promo.StartDate promo =? "")%string
              && negb (Promo.EndDate promo =? "")%string) eqn:Hd;
      [| apply Hskip; reflexivity].
    apply andb_prop in Hd. destruct Hd as [Hs He].
    apply negb_true_iff, String.eqb_neq in Hs.
    apply negb_true_iff, String.eqb_neq in He.
    eexists. eexists. eexists. split; [reflexivity |].
    right. split; [reflexivity |].
    split; apply formatDate_nonempty; assumption.
Qed.

Lemma stages_shape (element : Element.t) (game : Game.t) :
  exists startDate endDate precision,
    unknownGuard (fallbackStage zoneinfo timezone element game)
    = Game.mk (Game.Title game) (Game.Description game) (Game.ImageURL game)
              (Game.URL game) (Game.Status game) startDate endDate precision
              (Game.Publisher game).
Proof.
  assert (Hg : forall g,
             exists startDate endDate precision,
               unknownGuard g
               = Game.mk (Game.Title g) (Game.Description g) (Game.ImageURL g)
                         (Game.URL g) (Game.Status g) startDate endDate precision
                         (Game.Publisher g)).
  { intro g. unfold unknownGuard.
    destruct ((Game.StartDate g =? "")%string && (Game.EndDate g =? "")%string).
    - eexists. eexists. eexists. reflexivity.
    - exists (Game.StartDate g), (Game.EndDate g), (Game.DatePrecision g).
      destruct g; reflexivity. }
  unfold fallbackStage. destruct (needsFallback game); [| apply Hg].
  destruct (fallbackDates_shape (Element.PromotionalOffers element) game)
    as [sd [ed [pr [E _]]]].
  rewrite E. destruct (Hg (Game.mk (Game.Title game) (Game.Description game)
                                   (Game.ImageURL game) (Game.URL game) (Game.Status game)
                                   sd ed pr (Game.Publisher game)))
    as [sd' [ed' [pr' E']]].
  exists sd', ed', pr'. exact E'.
Qed.

End Outcome.

Lemma thumbnail_find (imgs : list KeyImage.t) (imageURL : string) :
  thumbnail imgs imageURL
  = match find isThumbnail imgs with
    | Some img => KeyImage.URL img
    | None => imageURL
    end.
Proof.
  induction imgs as [| img rest IH]; simpl; [reflexivity |].
  unfold isThumbnail at 1.
  destruct ((KeyImage.Type_ img =? "Thumbnail")%string
            || (KeyImage.Type_ img =? "DieselGameBox")%string); [reflexivity | exact IH].
Qed.

(** The descriptive fields of an emitted record are those of its entry,
    and its image is the URL of the first key image of type "Thumbnail" or
    "DieselGameBox" in the order of the response, whichever of the two types
    it has; without such an image the image URL is empty. *)
Theorem record_describes_entry (zoneinfo : string -> option time.Location)
    (includeUpcoming : bool) (timezone : string) (clock : Z)
    (element : Element.t) (game : Game.t) :
  convertElement zoneinfo includeUpcoming timezone clock element = Some game ->
  Game.Title game = Element.Title element
  /\ Game.Description game = Element.Description element
  /\ Game.Publisher game = Element.SellerName element
  /\ Game.ImageURL game
     = match find isThumbnail (Element.KeyImages element) with
       | Some img => KeyImage.URL img
       | None => ""
       end.
Proof.
  intro H. unfold convertElement in H.
  destruct (classify zoneinfo includeUpcoming timezone clock element) as [staged |] eqn:Hc;
    [| discriminate H].
  injection H as <-.
  destruct (stages_shape zoneinfo timezone element staged) as [sd [ed [pr E]]].
  rewrite E. cbn [Game.Title Game.Description Game.Publisher Game.ImageURL].
  rewrite <- thumbnail_find.
  destruct (classify_cases zoneinfo timezone clock element includeUpcoming staged Hc)
    as [[status [promo ->]] | ->]; repeat split.
Qed.

Lemma record_describes_entry_witness :
  exists game,
    convertElement noZoneinfo true "UTC" 0 catQuestElement = Some game
    /\ Game.Title game = "Cat Quest II"
    /\ Game.ImageURL game = "https://cdn1.epicgames.com/thumb.jpg".
Proof.
  eexists. split; [reflexivity |].
  destruct (record_describes_entry noZoneinfo true "UTC" 0 catQuestElement _ eq_refl)
    as [Ht [_ [_ Hi]]].
  split; [exact Ht | exact Hi].
Defined.

Lemma stages_Status (zoneinfo : string -> option time.Location) (timezone : string)
    (element : Element.t) (game : Game.t) :
  Game.Status (unknownGuard (fallbackStage zoneinfo timezone element game))
  = Game.Status game.
Proof. rewrite unknownGuard_Status, fallbackStage_Status. reflexivity. Qed.

(** Every emitted record has status "free" or "coming soon", and it is
    "coming soon" exactly when upcoming games are asked for and the entry
    has a sub-offer at 100% among its upcoming promotions and none among its
    current ones. *)
Theorem status_of_record (zoneinfo : string -> option time.Location)
    (includeUpcoming : bool) (timezone : string) (clock : Z)
    (element : Element.t) (game : Game.t) :
  convertElement zoneinfo includeUpcoming timezone clock element = Some game ->
  (Game.Status game = "free" \/ Game.Status game = "coming soon")
  /\ (Game.Status game = "coming soon"
      <-> includeUpcoming = true
          /\ freePromos (Element.PromotionalOffers element) = []
          /\ freePromos (Element.UpcomingPromotionalOffers element) <> []).
Proof.
  intro H. unfold convertElement in H.
  destruct (classify zoneinfo includeUpcoming timezone clock element) as [staged |] eqn:Hc;
    [| discriminate H].
  injection H as <-. rewrite stages_Status.
  destruct (classify_outcome zoneinfo timezone includeUpcoming clock element staged Hc)
    as [[pre [promo [Hl ->]]] | [[Hi [Hcur [pre [promo [Hl ->]]]]] | [Hcur [Hu [_ ->]]]]];
    cbn [withPromo Game.Status].
  - split; [left; reflexivity |]. split; [discriminate |].
    intros [_ [Hn _]]. rewrite Hn in Hl. destruct pre; discriminate Hl.
  - split; [right; reflexivity |]. split; [| reflexivity].
    intros _. split; [exact Hi |]. split; [exact Hcur |].
    rewrite Hl. destruct pre; discriminate.
  - rewrite estimateDates_Status.
    split; [left; reflexivity |]. split; [discriminate |].
    intros [Hi [_ Hn]]. destruct Hu as [Hu | Hu]; [congruence | contradiction].
Qed.

Lemma status_of_record_witness :
  exists game,
    convertElement noZoneinfo true "UTC" 0 announcedElement = Some game
    /\ Game.Status game = "coming soon".
Proof.
  eexists. split; [reflexivity |].
  apply (status_of_record noZoneinfo true "UTC" 0 announcedElement _ eq_refl).
  split; [reflexivity |]. split; [reflexivity | discriminate].
Defined.

(** No emitted record has both dates empty; its precision is one of
    "exact", "estimated" and "unknown", and a record of precision "unknown"
    has the literal "Unknown" for both dates. *)
Theorem dates_never_both_empty (zoneinfo : string -> option time.Location)
    (includeUpcoming : bool) (timezone : string) (clock : Z)
    (element : Element.t) (game : Game.t) :
  convertElement zoneinfo includeUpcoming timezone clock element = Some game ->
  ~ (Game.StartDate game = "" /\ Game.EndDate game = "")
  /\ (Game.DatePrecision game = "exact" \/ Game.DatePrecision game = "estimated"
      \/ Game.DatePrecision game = "unknown")
  /\ (Game.DatePrecision game = "unknown" ->
      Game.StartDate game = "Unknown" /\ Game.EndDate game = "Unknown").
Proof.
  intro H. unfold convertElement in H.
  destruct (classify zoneinfo includeUpcoming timezone clock element) as [staged0 |] eqn:Hc;
    [| discriminate H].
  injection H as <-.
  set (staged := fallbackStage zoneinfo timezone element staged0).
  assert (Hk : knownPrecision staged).
  { apply fallbackStage_knownPrecision.
    apply (classify_knownPrecision zoneinfo timezone includeUpcoming clock element), Hc. }
  unfold unknownGuard.
  destruct ((Game.StartDate staged =? "")%string && (Game.EndDate staged =? "")%string) eqn:E.
  - cbn. split; [intros [Hs _]; discriminate Hs |].
    split; [right; right; reflexivity | intros _; split; reflexivity].
  - split.
    + intros [Hs He]. rewrite Hs, He in E. discriminate E.
    + split; [destruct Hk as [Hk | Hk]; [left | right; left]; exact Hk |].
      intro Hu. destruct Hk as [Hk | Hk]; rewrite Hk in Hu; discriminate Hu.
Qed.

Lemma dates_never_both_empty_witness :
  exists game,
    convertElement noZoneinfo true "UTC" 0 undatedFreeElement = Some game
    /\ ~ (Game.StartDate game = "" /\ Game.EndDate game = "")
    /\ Game.DatePrecision game = "unknown".
Proof.
  eexists. split; [reflexivity |].
  split; [| reflexivity].
  apply (dates_never_both_empty noZoneinfo true "UTC" 0 undatedFreeElement _ eq_refl).
Defined.

Section Estimated.

Variable zoneinfo : string -> option time.Location.
Variable timezone : string.

Lemma stages_exact (element : Element.t) (game : Game.t) :
  Game.DatePrecision game = "exact" ->
  Game.DatePrecision (unknownGuard (fallbackStage zoneinfo timezone element game))
  <> "estimated".
Proof.
  intro He.
  assert (Hs : Game.DatePrecision (fallbackStage zoneinfo timezone element game) = "exact").
  { unfold fallbackStage. destruct (needsFallback game); [| exact He].
    destruct (fallbackDates_shape zoneinfo timezone (Element.PromotionalOffers element) game)
      as [sd [ed [pr [E [[_ [_ [_ Hp]]] | [Hp _]]]]]]; rewrite E; cbn; congruence. }
  unfold unknownGuard.
  destruct ((Game.StartDate _ =? "")%string && (Game.EndDate _ =? "")%string).
  - cbn. discriminate.
  - rewrite Hs. discriminate.
Qed.

Lemma stages_estimated (element : Element.t) (game : Game.t) :
  Game.Status game = "free" ->
  Game.DatePrecision game = "estimated" ->
  Game.StartDate game <> "" ->
  Game.DatePrecision (unknownGuard (fallbackStage zoneinfo timezone element game))
  = "estimated" ->
  unknownGuard (fallbackStage zoneinfo timezone element game) = game
  /\ forall o, In o (Element.PromotionalOffers element) -> datedHead o = false.
Proof.
  intros Hst Hest Hne Hp.
  assert (Hg : unknownGuard game = game).
  { unfold unknownGuard. rewrite (string_eqb_false _ _ Hne). reflexivity. }
  unfold fallbackStage in *.
  rewrite (needsFallback_true game Hst (or_intror Hest)) in *.
  destruct (fallbackDates_shape zoneinfo timezone (Element.PromotionalOffers element) game)
    as [sd [ed [pr [E [[Hall [Hs [He Hpr]]] | [Hpr [Hs He]]]]]]].
  - assert (Eg : fallbackDates zoneinfo timezone (Element.PromotionalOffers element) game
                 = game).
    { rewrite E. subst sd ed pr. destruct game; reflexivity. }
    rewrite Eg. split; [exact Hg | exact Hall].
  - exfalso. rewrite E in Hp. unfold unknownGuard in Hp.
    cbn [Game.StartDate Game.EndDate] in Hp.
    rewrite (string_eqb_false _ _ Hs) in Hp. cbn [andb] in Hp.
    cbn [Game.DatePrecision] in Hp. rewrite Hpr in Hp. discriminate Hp.
Qed.

End Estimated.

(** A record of precision "estimated" can only come from the price
    branch: its status is "free", its entry has no sub-offer at 100% among
    its current promotions, a free price string, and no current offer whose
    first sub-offer has both dates; and the record is the one the price
    branch built, dates included. *)
Theorem estimated_only_from_price (zoneinfo : string -> option time.Location)
    (includeUpcoming : bool) (timezone : string) (clock : Z)
    (element : Element.t) (game : Game.t) :
  convertElement zoneinfo includeUpcoming timezone clock element = Some game ->
  Game.DatePrecision game = "estimated" ->
  game = estimateDates zoneinfo timezone clock (initialGame element)
  /\ Game.Status game = "free"
  /\ freePromos (Element.PromotionalOffers element) = []
  /\ isFreePrice (Element.DiscountPrice element) = true
  /\ forall o, In o (Element.PromotionalOffers element) -> datedHead o = false.
Proof.
  intros H Hp. unfold convertElement in H.
  destruct (classify zoneinfo includeUpcoming timezone clock element) as [staged |] eqn:Hc;
    [| discriminate H].
  injection H as <-.
  destruct (classify_outcome zoneinfo timezone includeUpcoming clock element staged Hc)
    as [[pre [promo [Hl ->]]] | [[Hi [Hcur [pre [promo [Hl ->]]]]] | [Hcur [Hu [Hprice ->]]]]].
  - exfalso. revert Hp. apply stages_exact. reflexivity.
  - exfalso. revert Hp. apply stages_exact. reflexivity.
  - destruct (stages_estimated zoneinfo timezone element
                (estimateDates zoneinfo timezone clock (initialGame element))
                eq_refl eq_refl (Format_nonempty _) Hp) as [E Hall].
    rewrite E. split; [reflexivity |]. split; [reflexivity |].
    split; [exact Hcur |]. split; [exact Hprice | exact Hall].
Qed.

Lemma estimated_only_from_price_witness :
  exists game,
    convertElement noZoneinfo true "UTC" 1743778800 zeroPricedElement = Some game
    /\ Game.DatePrecision game = "estimated"
    /\ isFreePrice (Element.DiscountPrice zeroPricedElement) = true.
Proof.
  eexists. split; [reflexivity |]. split; [reflexivity |].
  apply (estimated_only_from_price noZoneinfo true "UTC" 1743778800 zeroPricedElement
           _ eq_refl eq_refl).
Defined.

(** With upcoming games asked for, an entry with no sub-offer at 100%
    among its current promotions is emitted as "coming soon" from the last
    sub-offer at 100% of its upcoming promotions: with that sub-offer's
    dates and precision "exact" if it has one, with "Unknown" dates and
    precision "unknown" if it has none.  The dates of the current
    promotions are never used for it. *)
Theorem upcoming_promo_dates (zoneinfo : string -> option time.Location)
    (timezone : string) (clock : Z) (element : Element.t)
    (pre : list Promo.t) (promo : Promo.t) :
  freePromos (Element.PromotionalOffers element) = [] ->
  freePromos (Element.UpcomingPromotionalOffers element) = (pre ++ [promo])%list ->
  exists game,
    convertElement zoneinfo true timezone clock element = Some game
    /\ Game.Status game = "coming soon"
    /\ (Promo.StartDate promo <> "" \/ Promo.EndDate promo <> "" ->
        game = withPromo zoneinfo timezone "coming soon" promo (initialGame element))
    /\ (Promo.StartDate promo = "" -> Promo.EndDate promo = "" ->
        Game.StartDate game = "Unknown" /\ Game.EndDate game = "Unknown"
        /\ Game.DatePrecision game = "unknown").
Proof.
  intros Hc Hu. unfold convertElement.
  rewrite (classify_upcoming zoneinfo timezone clock element pre promo Hc Hu).
  eexists. split; [reflexivity |].
  split; [rewrite stages_Status; reflexivity |].
  split.
  - intro Hd. apply exact_dates_kept, Hd.
  - intros Hs He. unfold withPromo. rewrite Hs, He, formatDate_empty.
    unfold fallbackStage, needsFallback. cbn [Game.Status].
    change ("coming soon" =? "free")%string with false. cbn [andb].
    unfold unknownGuard. cbn [Game.StartDate Game.EndDate]. cbn [String.eqb andb].
    repeat split.
Qed.

Lemma upcoming_promo_dates_witness :
  freePromos (Element.PromotionalOffers announcedElement) = []
  /\ exists game,
       convertElement noZoneinfo true "UTC+8" 0 announcedElement = Some game
       /\ Game.Status game = "coming soon".
Proof.
  split; [reflexivity |].
  destruct (upcoming_promo_dates noZoneinfo "UTC+8" 0 announcedElement []
              (Promo.mk "2025-04-11T15:00:00.000Z" "2025-04-18T15:00:00.000Z" 100)
              eq_refl eq_refl) as [game [Hc [Hs _]]].
  exists game. split; [exact Hc | exact Hs].
Defined.

(** ** The list of records *)

Section Records.

Variable zoneinfo : string -> option time.Location.
Variable timezone : string.

Lemma upcoming_keeps_entry (clock : Z) (element : Element.t) (game : Game.t) :
  convertElement zoneinfo false timezone clock element = Some game ->
  exists game',
    convertElement zoneinfo true timezone clock element = Some game'
    /\ (game' = game \/ Game.Status game' = "coming soon").
Proof.
  intro H. unfold convertElement in *.
  destruct (classify zoneinfo false timezone clock element) as [staged |] eqn:Hc;
    [| discriminate H].
  injection H as <-.
  destruct (classify_outcome zoneinfo timezone false clock element staged Hc)
    as [[pre [promo [Hl ->]]] | [[Hi _] | [Hcur [_ [Hprice ->]]]]].
  - rewrite (classify_current zoneinfo timezone clock element true pre promo Hl).
    eexists. split; [reflexivity | left; reflexivity].
  - discriminate Hi.
  - destruct (freePromos (Element.UpcomingPromotionalOffers element)) as [| y k] eqn:Hu.
    + rewrite (classify_price zoneinfo timezone clock element true Hcur (or_intror Hu)), Hprice.
      eexists. split; [reflexivity | left; reflexivity].
    + assert (Hne : y :: k <> []) by discriminate.
      destruct (exists_last Hne) as [pre [promo Hlast]]. rewrite Hlast in Hu.
      rewrite (classify_upcoming zoneinfo timezone clock element pre promo Hcur Hu).
      eexists. split; [reflexivity |]. right. rewrite stages_Status. reflexivity.
Qed.



End Records.


(** Asking for upcoming games never loses an entry: an entry emitted
    without them is emitted with them, as the same record or as a "coming
    soon" one, so the list with upcoming games is at least as long. *)
Theorem upcoming_never_drops (zoneinfo : string -> option time.Location)
    (timezone : string) (clock : nat -> Z) (elements : list Element.t) :
  (forall (c : Z) (element : Element.t) (game : Game.t),
      convertElement zoneinfo false timezone c element = Some game ->
      exists game',
        convertElement zoneinfo true timezone c element = Some game'
        /\ (game' = game \/ Game.Status game' = "coming soon"))
  /\ forall i,
       (List.length (convertFrom zoneinfo false timezone clock i elements)
        <= List.length (convertFrom zoneinfo true timezone clock i elements))%nat.
Proof.
  split; [intros c element game; apply upcoming_keeps_entry |].
  induction elements as [| element rest IH]; intro i; cbn [convertFrom].
  - lia.
  - specialize (IH (S i)).
    destruct (convertElement zoneinfo false timezone (clock i) element) as [g |] eqn:Hf.
    + destruct (upcoming_keeps_entry zoneinfo timezone (clock i) element g Hf)
        as [g' [Ht _]].
      rewrite Ht. cbn [List.length]. lia.
    + destruct (convertElement zoneinfo true timezone (clock i) element);
        cbn [List.length]; lia.
Qed.

(** ** The cards of emitted records *)

Section Cards.

Variable zoneinfo : string -> option time.Location.
Variable timezone : string.

Lemma emitted_status (includeUpcoming : bool) (clock : Z) (element : Element.t)
    (game : Game.t) :
  convertElement zoneinfo includeUpcoming timezone clock element = Some game ->
  Game.Status game = "free" \/ Game.Status game = "coming soon".
Proof.
  intro H. unfold convertElement in H.
  destruct (classify zoneinfo includeUpcoming timezone clock element) as [staged |] eqn:Hc;
    [| discriminate H].
  injection H as <-. rewrite stages_Status.
  destruct (classify_outcome zoneinfo timezone includeUpcoming clock element staged Hc)
    as [[pre [promo [_ ->]]] | [[_ [_ [pre [promo [_ ->]]]]] | [_ [_ [_ ->]]]]];
    [left | right | left]; reflexivity.
Qed.

Lemma emitted_precision (includeUpcoming : bool) (clock : Z) (element : Element.t)
    (game : Game.t) :
  convertElement zoneinfo includeUpcoming timezone clock element = Some game ->
  knownPrecision game
  \/ Game.DatePrecision game = "unknown"
     /\ Game.StartDate game = "Unknown" /\ Game.EndDate game = "Unknown".
Proof.
  intro H. unfold convertElement in H.
  destruct (classify zoneinfo includeUpcoming timezone clock element) as [staged0 |] eqn:Hc;
    [| discriminate H].
  injection H as <-.
  assert (Hk : knownPrecision (fallbackStage zoneinfo timezone element staged0)).
  { apply fallbackStage_knownPrecision.
    apply (classify_knownPrecision zoneinfo timezone includeUpcoming clock element), Hc. }
  unfold unknownGuard.
  destruct ((Game.StartDate _ =? "")%string && (Game.EndDate _ =? "")%string).
  - right. repeat split.
  - left. exact Hk.
Qed.

End Cards.

(** The card of an emitted record is green for "free" and yellow for
    "coming soon", never the neutral blue; its status text follows the
    status, and its footer names the precision, never blank. *)
Theorem card_of_record (zoneinfo : string -> option time.Location)
    (includeUpcoming : bool) (timezone : string) (clock : Z)
    (element : Element.t) (game : Game.t) (timestamp : string) :
  convertElement zoneinfo includeUpcoming timezone clock element = Some game ->
  let card := createGameEmbed timestamp game in
  (Game.Status game = "free" /\ DiscordEmbed.Color card = 3066993
   /\ In (DiscordEmbedField.mk "Status" "Currently Free" true) (DiscordEmbed.Fields card)
   \/ Game.Status game = "coming soon" /\ DiscordEmbed.Color card = 15844367
      /\ In (DiscordEmbedField.mk "Status" "Coming Soon" true) (DiscordEmbed.Fields card))
  /\ (Game.DatePrecision game = "exact"
      /\ DiscordEmbed.Footer card = Some "Dates are exact"
      \/ Game.DatePrecision game = "estimated"
         /\ DiscordEmbed.Footer card = Some "Dates are estimated"
      \/ Game.DatePrecision game = "unknown"
         /\ DiscordEmbed.Footer card = Some "Dates are unknown").
Proof.
  intros H card. subst card. split.
  - assert (Hin : forall (a b c : list DiscordEmbedField.t) (f : DiscordEmbedField.t),
               In f (((a ++ [f]) ++ b) ++ c)%list).
    { intros a b c f. apply in_or_app. left. apply in_or_app. left.
      apply in_or_app. right. left. reflexivity. }
    destruct (emitted_status zoneinfo timezone includeUpcoming clock element game H)
      as [Hs | Hs]; [left | right]; (split; [exact Hs |]);
      unfold createGameEmbed; cbn [DiscordEmbed.Color DiscordEmbed.Fields];
      rewrite Hs; (split; [reflexivity |]);
      cbn [String.eqb Ascii.eqb Bool.eqb andb];
      destruct (negb (Game.Publisher game =? "")%string);
      destruct (negb (Game.StartDate game =? "Unknown")%string);
      destruct (negb (Game.EndDate game =? "Unknown")%string);
      cbn [app In]; tauto.
  - destruct (emitted_precision zoneinfo timezone includeUpcoming clock element game H)
      as [[Hp | Hp] | [Hp _]]; [left | right; left | right; right];
      (split; [exact Hp |]); unfold createGameEmbed; cbn [DiscordEmbed.Footer];
      rewrite Hp; reflexivity.
Qed.

Lemma card_of_record_witness :
  exists game,
    convertElement noZoneinfo true "Asia/Manila" 0 catQuestElement = Some game
    /\ DiscordEmbed.Color (createGameEmbed "2025-04-04T15:00:00Z" game) = 3066993.
Proof.
  assert (H : convertElement noZoneinfo true "Asia/Manila" 0 catQuestElement
              = Some (Game.mk "Cat Quest II" "Open-world action-RPG"
                              "https://cdn1.epicgames.com/thumb.jpg"
                              "https://store.epicgames.com/en-US/p/cat-quest-ii"
                              "free" "2025-04-04 23:00:00 UTC+8" "2025-04-11 23:00:00 UTC+8"
                              "exact" "Kepler Interactive"))
    by (vm_compute; reflexivity).
  eexists. split; [exact H |].
  destruct (card_of_record noZoneinfo true "Asia/Manila" 0 catQuestElement _
              "2025-04-04T15:00:00Z" H) as [[[_ [Hc _]] | [Hs _]] _].
  - exact Hc.
  - discriminate Hs.
Defined.

(** The card of an emitted record of precision "unknown" shows no date:
    its fields are the publisher, when there is one, and the status. *)
Theorem card_without_dates (zoneinfo : string -> option time.Location)
    (includeUpcoming : bool) (timezone : string) (clock : Z)
    (element : Element.t) (game : Game.t) (timestamp : string) :
  convertElement zoneinfo includeUpcoming timezone clock element = Some game ->
  Game.DatePrecision game = "unknown" ->
  DiscordEmbed.Fields (createGameEmbed timestamp game)
  = ((if (Game.Publisher game =? "")%string then []
      else [DiscordEmbedField.mk "Publisher" (Game.Publisher game) true])
     ++ [DiscordEmbedField.mk "Status"
           (if (Game.Status game =? "coming soon")%string
            then "Coming Soon" else "Currently Free") true])%list.
Proof.
  intros H Hp.
  destruct (emitted_precision zoneinfo timezone includeUpcoming clock element game H)
    as [[Hk | Hk] | [_ [Hs He]]]; try (rewrite Hk in Hp; discriminate Hp).
  unfold createGameEmbed. cbn [DiscordEmbed.Fields]. rewrite Hs, He.
  cbn [String.eqb Ascii.eqb Bool.eqb andb negb].
  destruct (Game.Publisher game =? "")%string;
    destruct (Game.Status game =? "coming soon")%string; reflexivity.
Qed.

Lemma card_without_dates_witness :
  exists game,
    convertElement noZoneinfo true "UTC" 0 undatedFreeElement = Some game
    /\ DiscordEmbed.Fields (createGameEmbed "2025-04-04T15:00:00Z" game)
       = [DiscordEmbedField.mk "Publisher" "Studio" true;
          DiscordEmbedField.mk "Status" "Currently Free" true].
Proof.
  assert (H : convertElement noZoneinfo true "UTC" 0 undatedFreeElement
              = Some (Game.mk "Undated" "" "" "https://store.epicgames.com/en-US/p/"
                              "free" "Unknown" "Unknown" "unknown" "Studio"))
    by (vm_compute; reflexivity).
  eexists. split; [exact H |].
  exact (card_without_dates noZoneinfo true "UTC" 0 undatedFreeElement _
           "2025-04-04T15:00:00Z" H eq_refl).
Defined.

(** ** Posting to the webhook *)

Lemma posted_messages (timestamp : nat -> string)
    (respond : DiscordWebhookMessage.t -> string + Z) (games : list Game.t) :
  fst (SendDiscordNotification timestamp respond games)
  = match games with
    | [] => []
    | _ :: _ =>
      [DiscordWebhookMessage.mk "🎮 Free Games from Epic Games Store 🎮"
                                (cardsFrom timestamp 0 (firstn 10 games))]
    end.
Proof.
  unfold SendDiscordNotification.
  destruct games as [| game rest]; [reflexivity |].
  cbn [List.length Nat.eqb DiscordWebhookMessage.Content DiscordWebhookMessage.Embeds].
  rewrite appendEmbeds_cards. cbn [app Nat.sub].
  destruct (respond _) as [err | status]; [reflexivity |].
  destruct ((status <? 200) || (300 <=? status)); reflexivity.
Qed.

Lemma posted_bounds (timestamp : nat -> string)
    (respond : DiscordWebhookMessage.t -> string + Z) (games : list Game.t) :
  (List.length (fst (SendDiscordNotification timestamp respond games)) <= 1)%nat
  /\ forall message,
       In message (fst (SendDiscordNotification timestamp respond games)) ->
       List.length (DiscordWebhookMessage.Embeds message)
       = Nat.min (List.length games) 10
       /\ (1 <= List.length (DiscordWebhookMessage.Embeds message) <= 10)%nat.
Proof.
  rewrite posted_messages. destruct games as [| game rest].
  - split; [cbn; lia | intros message []].
  - split; [cbn; lia |].
    intros message [<- | []]. cbn [DiscordWebhookMessage.Embeds].
    rewrite cardsFrom_length, length_firstn. cbn [List.length]. lia.
Qed.

(** [SendDiscordNotification] returns no error exactly when the list is
    empty, in which case nothing is posted, or the webhook answers its one
    message with a status from 200 to 299; a transport error and any other
    status are returned as errors. *)
Theorem notification_error (timestamp : nat -> string)
    (respond : DiscordWebhookMessage.t -> string + Z) (games : list Game.t) :
  let message :=
    DiscordWebhookMessage.mk "🎮 Free Games from Epic Games Store 🎮"
                             (cardsFrom timestamp 0 (firstn 10 games)) in
  (snd (SendDiscordNotification timestamp respond games) = None
   <-> games = [] \/ exists status, respond message = inr status /\ 200 <= status < 300)
  /\ (games = [] -> SendDiscordNotification timestamp respond games = ([], None)).
Proof.
  intro message. split; [| intros ->; reflexivity].
  unfold SendDiscordNotification.
  destruct games as [| game rest].
  - cbn. split; [intros _; left; reflexivity | reflexivity].
  - cbn [List.length Nat.eqb DiscordWebhookMessage.Content DiscordWebhookMessage.Embeds].
    rewrite appendEmbeds_cards. cbn [app Nat.sub]. fold message.
    destruct (respond message) as [err | status].
    + cbn. split; [discriminate |].
      intros [H | [status [H _]]]; discriminate H.
    + destruct ((status <? 200) || (300 <=? status)) eqn:E; cbn [snd].
      * split; [discriminate |].
        intros [H | [status' [H Hr]]]; [discriminate H |].
        injection H as <-. exfalso.
        apply orb_true_iff in E. destruct E as [E | E];
          [apply Z.ltb_lt in E | apply Z.leb_le in E]; lia.
      * split; [| reflexivity].
        intros _. right. exists status. split; [reflexivity |].
        apply orb_false_iff in E. destruct E as [E1 E2].
        apply Z.ltb_ge in E1. apply Z.leb_gt in E2. lia.
Qed.

(** ** The three triggers *)

Section TriggerProperties.

Variable zoneinfo : string -> option time.Location.
Variable timezone : string.
Variable clock : nat -> Z.
Variable upstream : string + list Element.t.

Lemma ParseBool_empty : strconv.ParseBool "" = None.
Proof. reflexivity. Qed.

(** The [includeUpcoming] a request ends up with. *)
Lemma handler_includeUpcoming (upcoming : string) :
  (if negb (upcoming =? "")%string
   then match strconv.ParseBool upcoming with
        | Some upcomingBool => upcomingBool
        | None => true
        end
   else true)
  = match strconv.ParseBool upcoming with
    | Some upcomingBool => upcomingBool
    | None => true
    end.
Proof.
  destruct (String.eqb_spec upcoming "") as [-> | _]; reflexivity.
Qed.

End TriggerProperties.

(** The response of [/api/free-games] depends on the store alone: a
    failed fetch gives status 500 with [success] false, count 0 and no data;
    otherwise status 200 with the records and their number, upcoming games
    included unless the [upcoming] parameter is one of Go's spellings of
    false.  Neither the [notify] parameter, nor the webhook and what it
    answers, changes the status or the body. *)
Theorem handler_response (zoneinfo : string -> option time.Location)
    (timezone : string) (clock : nat -> Z) (upstream : string + list Element.t)
    (timestamp : nat -> string) (respond : DiscordWebhookMessage.t -> string + Z)
    (webhookURL upcoming notify : string) :
  let result :=
    freeGamesHandler zoneinfo timezone clock upstream timestamp respond
                     webhookURL upcoming notify in
  let includeUpcoming :=
    match strconv.ParseBool upcoming with
    | Some false => false
    | _ => true
    end in
  (HandlerResult.StatusCode result, HandlerResult.Body result)
  = match upstream with
    | inl err => (500, APIResponse.mk false ("Error fetching games: " ++ err) 0 [])
    | inr elements =>
      let games := convertFrom zoneinfo includeUpcoming timezone clock 0 elements in
      (200, APIResponse.mk true "" (Z.of_nat (List.length games)) games)
    end
  /\ forall timestamp' respond' webhookURL' notify',
       let result' :=
         freeGamesHandler zoneinfo timezone clock upstream timestamp' respond'
                          webhookURL' upcoming notify' in
       HandlerResult.StatusCode result' = HandlerResult.StatusCode result
       /\ HandlerResult.Header result' = HandlerResult.Header result
       /\ HandlerResult.Body result' = HandlerResult.Body result.
Proof.
  intros result includeUpcoming.
  assert (E : forall ts rs w n,
             let r := freeGamesHandler zoneinfo timezone clock upstream ts rs w upcoming n in
             (HandlerResult.StatusCode r, HandlerResult.Header r, HandlerResult.Body r)
             = match upstream with
               | inl err =>
                 (500, [("Content-Type", "application/json");
                        ("Access-Control-Allow-Origin", "*")],
                  APIResponse.mk false ("Error fetching games: " ++ err) 0 [])
               | inr elements =>
                 let games := convertFrom zoneinfo includeUpcoming timezone clock 0 elements in
                 (200, [("Content-Type", "application/json");
                        ("Access-Control-Allow-Origin", "*")],
                  APIResponse.mk true "" (Z.of_nat (List.length games)) games)
               end).
  { intros ts rs w n r. subst r. unfold freeGamesHandler. cbv zeta.
    rewrite handler_includeUpcoming.
    assert (Ei : match strconv.ParseBool upcoming with
                 | Some upcomingBool => upcomingBool
                 | None => true
                 end = includeUpcoming).
    { subst includeUpcoming. destruct (strconv.ParseBool upcoming) as [[|] |]; reflexivity. }
    rewrite Ei. destruct upstream as [err | elements]; reflexivity. }
  split.
  - pose proof (E timestamp respond webhookURL notify) as H. cbv zeta in H.
    apply (f_equal (fun t => (fst (fst t), snd t))) in H. cbn [fst snd] in H.
    subst result. rewrite H. destruct upstream; reflexivity.
  - intros ts' rs' w' n' result'.
    assert (T : (HandlerResult.StatusCode result', HandlerResult.Header result',
                 HandlerResult.Body result')
                = (HandlerResult.StatusCode result, HandlerResult.Header result,
                   HandlerResult.Body result)).
    { subst result result'.
      rewrite (E timestamp respond webhookURL notify), (E ts' rs' w' n'). reflexivity. }
    split; [exact (f_equal (fun t => fst (fst t)) T) |].
    split; [exact (f_equal (fun t => snd (fst t)) T) | exact (f_equal snd T)].
Qed.

Lemma handler_posted (zoneinfo : string -> option time.Location)
    (timezone : string) (clock : nat -> Z) (upstream : string + list Element.t)
    (timestamp : nat -> string) (respond : DiscordWebhookMessage.t -> string + Z)
    (webhookURL upcoming notify : string) :
  HandlerResult.Posted
    (freeGamesHandler zoneinfo timezone clock upstream timestamp respond
                      webhookURL upcoming notify)
  = match upstream with
    | inl _ => []
    | inr elements =>
      if negb (webhookURL =? "")%string && wantsNotification notify
      then fst (SendDiscordNotification timestamp respond
                  (convertFrom zoneinfo (requestedUpcoming upcoming) timezone clock 0 elements))
      else []
    end.
Proof.
  unfold freeGamesHandler. cbv zeta. rewrite handler_includeUpcoming.
  replace (match strconv.ParseBool upcoming with
           | Some upcomingBool => upcomingBool
           | None => true
           end) with (requestedUpcoming upcoming)
    by (unfold requestedUpcoming; destruct (strconv.ParseBool upcoming) as [[|] |]; reflexivity).
  destruct upstream as [err | elements]; cbn [fetchFreeGames HandlerResult.Posted];
    [reflexivity |].
  unfold wantsNotification.
  destruct (String.eqb_spec notify "") as [-> | Hn];
    destruct (webhookURL =? "")%string; cbn [negb andb orb]; try reflexivity;
    destruct (strconv.ParseBool notify) as [[|] |]; reflexivity.
Qed.


(** The three triggers post alike: a scheduled run and a request to
    [/notify] post what a request to [/api/free-games] without parameters
    posts, upcoming games included; none posts without a webhook or after a
    failed fetch. *)
Theorem triggers_post_alike (zoneinfo : string -> option time.Location)
    (timezone : string) (clock : nat -> Z) (upstream : string + list Element.t)
    (timestamp : nat -> string) (respond : DiscordWebhookMessage.t -> string + Z)
    (webhookURL : string) :
  let scheduled :=
    cronJob zoneinfo timezone clock upstream timestamp respond webhookURL in
  RouteResult.Posted
    (notifyRoute zoneinfo timezone clock upstream timestamp respond webhookURL)
  = scheduled
  /\ HandlerResult.Posted
       (freeGamesHandler zoneinfo timezone clock upstream timestamp respond
                         webhookURL "" "")
     = scheduled
  /\ scheduled
     = match upstream with
       | inl _ => []
       | inr elements =>
         if (webhookURL =? "")%string then []
         else fst (SendDiscordNotification timestamp respond
                     (convertFrom zoneinfo true timezone clock 0 elements))
       end.
Proof.
  intro scheduled. subst scheduled. rewrite handler_posted.
  unfold notifyRoute, cronJob.
  destruct upstream as [err | elements]; cbn [fetchFreeGames];
    destruct (webhookURL =? "")%string; cbn [negb andb RouteResult.Posted];
    repeat split; try reflexivity.
  destruct (SendDiscordNotification timestamp respond
              (convertFrom zoneinfo true timezone clock 0 elements)) as [posted [err |]];
    reflexivity.
Qed.

(** A request to [/notify] with a webhook configured and a fetch that
    succeeds: when no record is emitted it answers 200 "Notification sent
    for 0 games" and nothing is posted; whenever it answers 200 the message
    names the number of records, of which the one message posted carries the
    first ten at most. *)
Theorem notify_route_success (zoneinfo : string -> option time.Location)
    (timezone : string) (clock : nat -> Z) (elements : list Element.t)
    (timestamp : nat -> string) (respond : DiscordWebhookMessage.t -> string + Z)
    (discordWebhook : string) :
  discordWebhook <> "" ->
  let games := convertFrom zoneinfo true timezone clock 0 elements in
  let result :=
    notifyRoute zoneinfo timezone clock (inr elements) timestamp respond discordWebhook in
  (games = [] ->
   result = RouteResult.mk 200 (inr (true, "Notification sent for 0 games")) [])
  /\ (RouteResult.StatusCode result = 200 ->
      RouteResult.Body result
      = inr (true, "Notification sent for "
                     ++ Sprint_d (Z.of_nat (List.length games)) ++ " games")
      /\ forall message,
           In message (RouteResult.Posted result) ->
           List.length (DiscordWebhookMessage.Embeds message)
           = Nat.min (List.length games) 10).
Proof.
  intros Hw games result. subst result. unfold notifyRoute.
  rewrite (string_eqb_false _ _ Hw). cbn [fetchFreeGames]. fold games.
  pose proof (posted_bounds timestamp respond games) as [_ Hcards].
  split.
  - intro Hg. rewrite Hg. reflexivity.
  - destruct (SendDiscordNotification timestamp respond games) as [posted [err |]];
      cbn [RouteResult.StatusCode RouteResult.Body RouteResult.Posted fst] in *.
    + discriminate.
    + intros _. split; [reflexivity |]. intros message Hin. apply Hcards, Hin.
Qed.

Lemma notify_route_success_witness :
  "https://discord.example/hook" <> ""
  /\ notifyRoute noZoneinfo "UTC" (fun _ => 0) (inr [paidElement]) (fun _ => "")
       (fun _ => inr 204) "https://discord.example/hook"
     = RouteResult.mk 200 (inr (true, "Notification sent for 0 games")) [].
Proof.
  split; [discriminate |].
  apply (notify_route_success noZoneinfo "UTC" (fun _ => 0) [paidElement] (fun _ => "")
           (fun _ => inr 204) "https://discord.example/hook"); [discriminate | reflexivity].
Defined.

(** ** Dates and zones *)

(** [formatDate] gives the empty string for the empty string only. *)
Theorem formatDate_empty_iff (zoneinfo : string -> option time.Location)
    (timezone dateStr : string) :
  formatDate zoneinfo timezone dateStr = "" <-> dateStr = "".
Proof.
  split.
  - intro H. destruct (String.eqb_spec dateStr "") as [E | E]; [exact E |].
    exfalso. exact (formatDate_nonempty zoneinfo timezone dateStr E H).
  - intros ->. reflexivity.
Qed.

(** When the time zone name does not load, the dates of the price branch
    are the clock and the clock seven days (604800 seconds) later, both
    printed eight hours east of UTC under the name "UTC+8", whatever offset
    the name spells. *)
Theorem estimate_unloaded_zone (zoneinfo : string -> option time.Location)
    (timezone : string) (clock : Z) (game : Game.t) :
  LoadLocation zoneinfo timezone = None ->
  let estimated := estimateDates zoneinfo timezone clock game in
  Game.StartDate estimated
  = time.Format (time.mkTime clock (time.FixedZone "UTC+8" 28800))
  /\ Game.EndDate estimated
     = time.Format (time.mkTime (clock + 604800) (time.FixedZone "UTC+8" 28800)).
Proof.
  intros H estimated. subst estimated. unfold estimateDates, estimate_location, time.In.
  rewrite H.
  cbn [time.unixSec Game.StartDate Game.EndDate Game.set_StartDate Game.set_EndDate
       Game.set_DatePrecision Game.set_Status].
  change (8 * 60 * 60) with 28800.
  rewrite (AddDate_days_constant clock (time.FixedZone "UTC+8" 28800) 28800 7)
    by (intro u; reflexivity).
  split; reflexivity.
Qed.

Lemma estimate_unloaded_zone_witness :
  LoadLocation noZoneinfo "UTC+3" = None
  /\ Game.StartDate (estimateDates noZoneinfo "UTC+3" 1743778800 (initialGame zeroPricedElement))
     = time.Format (time.mkTime 1743778800 (time.FixedZone "UTC+8" 28800)).
Proof.
  split; [reflexivity |].
  apply (estimate_unloaded_zone noZoneinfo "UTC+3" 1743778800 (initialGame zeroPricedElement)).
  reflexivity.
Defined.

Lemma scanDigits_app (digits : list ascii) (rest : string) :
  forallb fmt.isDigit digits = true ->
  startsWithDigit rest = false ->
  fmt.scanDigits (string_of_list_ascii digits ++ rest) = (digits, rest).
Proof.
  intros Hd Hr. induction digits as [| c ds IH]; cbn.
  - destruct rest as [| c r]; [reflexivity |].
    cbn in Hr. cbn. rewrite Hr. reflexivity.
  - cbn in Hd. apply andb_prop in Hd. destruct Hd as [Hc Hds].
    rewrite Hc, (IH Hds). reflexivity.
Qed.

Lemma Sscanf_d_signed (neg : bool) (digits : list ascii) (rest : string) :
  digits <> [] ->
  forallb fmt.isDigit digits = true ->
  startsWithDigit rest = false ->
  let value := if neg then - fmt.digitsValue digits else fmt.digitsValue digits in
  fitsInt64 value = true ->
  fmt.Sscanf_d (String (if neg then "-" else "+") (string_of_list_ascii digits ++ rest))
  = Some value.
Proof.
  intros Hne Hd Hr value Hfit. unfold fmt.Sscanf_d.
  set (body := (string_of_list_ascii digits ++ rest)%string).
  assert (Hskip : forall c, c = "+"%char \/ c = "-"%char ->
            fmt.SkipSpace (String.length (String c body)) (String c body)
            = Some (String c body)).
  { intros c [-> | ->]; cbn [String.length fmt.SkipSpace];
      destruct body as [| c2 [| c3 r]]; reflexivity. }
  destruct neg.
  - rewrite (Hskip "-"%char (or_intror eq_refl)).
    subst body. rewrite (scanDigits_app digits rest Hd Hr).
    destruct digits as [| c ds]; [contradiction |].
    fold value. rewrite Hfit. reflexivity.
  - rewrite (Hskip "+"%char (or_introl eq_refl)).
    subst body. rewrite (scanDigits_app digits rest Hd Hr).
    destruct digits as [| c ds]; [contradiction |].
    fold value. rewrite Hfit. reflexivity.
Qed.

(** A time zone name that does not load and is "UTC" or "GMT", a sign,
    decimal digits and then anything that does not start with a digit,
    gives the fixed zone that many hours east (west for "-"), under the
    whole name: what follows the digits is not looked at. *)
Theorem hour_offset_zone (zoneinfo : string -> option time.Location)
    (gmt neg : bool) (digits : list ascii) (rest : string) :
  let timezone := offsetName gmt neg digits rest in
  let hours := if neg then - fmt.digitsValue digits else fmt.digitsValue digits in
  LoadLocation zoneinfo timezone = None ->
  digits <> [] ->
  forallb fmt.isDigit digits = true ->
  startsWithDigit rest = false ->
  - 2 ^ 63 <= hours * 3600 < 2 ^ 63 ->
  formatDate_location zoneinfo timezone = time.FixedZone timezone (hours * 3600).
Proof.
  intros timezone hours Hload Hne Hd Hr Hrange.
  assert (Hfit : fitsInt64 hours = true).
  { unfold fitsInt64. apply andb_true_intro. split; [apply Z.leb_le | apply Z.leb_le]; lia. }
  pose proof (Sscanf_d_signed neg digits rest Hne Hd Hr Hfit) as Hscan.
  unfold formatDate_location. rewrite Hload.
  set (body := (string_of_list_ascii digits ++ rest)%string) in *.
  assert (Hparts :
            strings.HasPrefix timezone "UTC" || strings.HasPrefix timezone "GMT" = true
            /\ strings.TrimPrefix (strings.TrimPrefix timezone "UTC") "GMT"
               = String (if neg then "-" else "+") body).
  { subst timezone. unfold offsetName. fold body.
    destruct gmt; destruct neg; split; reflexivity. }
  destruct Hparts as [Hp Ht]. rewrite Hp, Ht.
  replace ((String (if neg then "-" else "+") body =? "")%string) with false
    by (destruct neg; reflexivity).
  rewrite Hscan. fold hours. rewrite wrap64_hours by exact Hrange. reflexivity.
Qed.

Lemma hour_offset_zone_witness :
  LoadLocation noZoneinfo "GMT-5:30" = None
  /\ formatDate_location noZoneinfo "GMT-5:30" = time.FixedZone "GMT-5:30" (-18000).
Proof.
  split; [reflexivity |].
  apply (hour_offset_zone noZoneinfo true true ["5"%char] ":30");
    [reflexivity | discriminate | reflexivity | reflexivity | cbn; lia].
Defined.

(** ** The configuration helpers *)

Lemma digitChar_digit (d : Z) :
  0 <= d <= 9 ->
  fmt.digitVal (time.digitChar d) = d /\ fmt.isDigit (time.digitChar d) = true.
Proof.
  intro H.
  assert (E : d = 0 \/ d = 1 \/ d = 2 \/ d = 3 \/ d = 4 \/ d = 5 \/ d = 6 \/ d = 7
              \/ d = 8 \/ d = 9) by lia.
  repeat (destruct E as [-> | E]; [split; reflexivity |]).
  subst d. split; reflexivity.
Qed.

Lemma digitsOf_value (fuel : nat) :
  forall (u : Z) (acc : string),
    0 <= u < 2 ^ Z.of_nat fuel ->
    fold_left (fun a c => 10 * a + fmt.digitVal c)
              (list_ascii_of_string (time.digitsOf fuel u acc)) 0
    = fold_left (fun a c => 10 * a + fmt.digitVal c) (list_ascii_of_string acc) u.
Proof.
  induction fuel as [| fuel IH]; intros u acc Hu.
  - cbn in Hu. replace u with 0 by lia. reflexivity.
  - cbn [time.digitsOf].
    assert (Hm : 0 <= u mod 10 <= 9) by (Z.div_mod_to_equations; lia).
    destruct (digitChar_digit (u mod 10) Hm) as [Hv _].
    destruct (Z.eqb_spec (u / 10) 0) as [Hq | Hq].
    + cbn [list_ascii_of_string fold_left]. rewrite Hv.
      f_equal. Z.div_mod_to_equations. lia.
    + rewrite IH.
      * cbn [list_ascii_of_string fold_left]. rewrite Hv.
        f_equal. Z.div_mod_to_equations. lia.
      * rewrite Nat2Z.inj_succ, Z.pow_succ_r in Hu by lia.
        assert (0 < 2 ^ Z.of_nat fuel) by (apply Z.pow_pos_nonneg; lia).
        Z.div_mod_to_equations. lia.
Qed.

Lemma digitsOf_digits (fuel : nat) :
  forall (u : Z) (acc : string),
    0 <= u ->
    forallb fmt.isDigit (list_ascii_of_string acc) = true ->
    forallb fmt.isDigit (list_ascii_of_string (time.digitsOf fuel u acc)) = true.
Proof.
  induction fuel as [| fuel IH]; intros u acc Hu Hacc; [exact Hacc |].
  cbn [time.digitsOf].
  assert (Hm : 0 <= u mod 10 <= 9) by (Z.div_mod_to_equations; lia).
  destruct (digitChar_digit (u mod 10) Hm) as [_ Hd].
  assert (Hacc' : forallb fmt.isDigit
                    (list_ascii_of_string (String (time.digitChar (u mod 10)) acc)) = true).
  { cbn [list_ascii_of_string forallb]. rewrite Hd, Hacc. reflexivity. }
  destruct (u / 10 =? 0); [exact Hacc' |].
  apply IH; [Z.div_mod_to_equations; lia | exact Hacc'].
Qed.

Lemma digitsOf_nonempty (fuel : nat) :
  forall (u : Z) (acc : string), acc <> "" -> time.digitsOf fuel u acc <> "".
Proof.
  induction fuel as [| fuel IH]; intros u acc Hacc; [exact Hacc |].
  cbn [time.digitsOf]. destruct (u / 10 =? 0); [discriminate |].
  apply IH. discriminate.
Qed.

Lemma Atoi_digits (s : string) :
  s <> "" ->
  forallb fmt.isDigit (list_ascii_of_string s) = true ->
  strconv.Atoi s
  = if fitsInt64 (fmt.digitsValue (list_ascii_of_string s))
    then Some (fmt.digitsValue (list_ascii_of_string s)) else None.
Proof.
  intros Hne Hd. destruct s as [| c r]; [contradiction |].
  assert (Hc : fmt.isDigit c = true).
  { cbn [list_ascii_of_string forallb] in Hd. apply andb_prop in Hd. apply Hd. }
  unfold strconv.Atoi.
  destruct c as [[] [] [] [] [] [] [] []]; cbv in Hc; try discriminate Hc;
    cbv zeta iota beta; rewrite Hd; reflexivity.
Qed.

Lemma decimal_digits (u : Z) :
  0 <= u ->
  let ds := time.digitsOf (S (Z.to_nat (Z.log2 u))) u "" in
  ds <> ""
  /\ forallb fmt.isDigit (list_ascii_of_string ds) = true
  /\ fmt.digitsValue (list_ascii_of_string ds) = u.
Proof.
  intros Hu ds. subst ds. split; [| split].
  - cbn [time.digitsOf]. destruct (u / 10 =? 0); [discriminate |].
    apply digitsOf_nonempty. discriminate.
  - apply digitsOf_digits; [exact Hu | reflexivity].
  - unfold fmt.digitsValue. rewrite digitsOf_value; [reflexivity |].
    split; [exact Hu |].
    rewrite Nat2Z.inj_succ, Z2Nat.id by apply Z.log2_nonneg.
    destruct (Z.eq_dec u 0) as [-> | Hnz]; [reflexivity |].
    apply Z.log2_spec. lia.
Qed.

Lemma Atoi_Sprint_d (n : Z) :
  fitsInt64 n = true -> strconv.Atoi (Sprint_d n) = Some n /\ Sprint_d n <> "".
Proof.
  intro Hfit. unfold Sprint_d, time.appendInt. cbn [Nat.sub time.zeros].
  destruct (decimal_digits (Z.abs n) (Z.abs_nonneg n)) as [Hne [Hd Hv]].
  set (ds := time.digitsOf (S (Z.to_nat (Z.log2 (Z.abs n)))) (Z.abs n) "") in *.
  destruct (Z.ltb_spec n 0) as [Hneg | Hpos].
  - cbn [append]. split; [| discriminate].
    unfold strconv.Atoi. cbv zeta iota beta.
    rewrite (string_eqb_false _ _ Hne), Hd, Hv.
    replace (- Z.abs n) with n by lia. rewrite Hfit. reflexivity.
  - cbn [append]. split; [| exact Hne].
    rewrite (Atoi_digits ds Hne Hd), Hv.
    replace (Z.abs n) with n by lia. rewrite Hfit. reflexivity.
Qed.

(** [getEnvInt] gives the default for a variable that is unset, empty or
    not a decimal integer, and reads back every 64-bit integer from its
    decimal writing. *)
Theorem getEnvInt_decimal (env : string -> string) (key : string) (defaultValue : Z) :
  (env key = "" -> getEnvInt env key defaultValue = defaultValue)
  /\ (strconv.Atoi (env key) = None -> getEnvInt env key defaultValue = defaultValue)
  /\ forall n,
       fitsInt64 n = true ->
       env key = Sprint_d n ->
       getEnvInt env key defaultValue = n.
Proof.
  unfold getEnvInt. cbv zeta. split; [intros ->; reflexivity |]. split.
  - intros ->. destruct (env key =? "")%string; reflexivity.
  - intros n Hfit ->. destruct (Atoi_Sprint_d n Hfit) as [Ha Hne].
    rewrite (string_eqb_false _ _ Hne), Ha. reflexivity.
Qed.

(** ** The upcoming flag *)

(** Asking for upcoming games changes nothing for an entry that has a
    sub-offer at 100% among its current promotions, or none among its
    upcoming ones: the record, or its absence, is the same. *)
Theorem upcoming_flag_irrelevant (zoneinfo : string -> option time.Location)
    (timezone : string) (clock : Z) (element : Element.t) :
  freePromos (Element.PromotionalOffers element) <> []
  \/ freePromos (Element.UpcomingPromotionalOffers element) = [] ->
  convertElement zoneinfo true timezone clock element
  = convertElement zoneinfo false timezone clock element.
Proof.
  intro H. unfold convertElement.
  destruct (freePromos (Element.PromotionalOffers element)) as [| x l] eqn:Hc.
  - destruct H as [H | H]; [contradiction |].
    rewrite (classify_price zoneinfo timezone clock element true Hc (or_intror H)).
    rewrite (classify_price zoneinfo timezone clock element false Hc (or_introl eq_refl)).
    reflexivity.
  - assert (Hne : x :: l <> []) by discriminate.
    destruct (exists_last Hne) as [pre [promo Hlast]]. rewrite Hlast in Hc.
    rewrite !(classify_current zoneinfo timezone clock element _ pre promo Hc).
    reflexivity.
Qed.

Lemma upcoming_flag_irrelevant_witness :
  freePromos (Element.PromotionalOffers catQuestElement) <> []
  /\ convertElement noZoneinfo true "UTC" 0 catQuestElement
     = convertElement noZoneinfo false "UTC" 0 catQuestElement.
Proof.
  split; [discriminate |].
  apply (upcoming_flag_irrelevant noZoneinfo "UTC" 0 catQuestElement).
  left. discriminate.
Defined.
